(** * The CloudFront paywall filter (Lambda@Edge viewer-request function)

    A shallow embedding of the inline JavaScript of
    [deploy-script/step-2-cfdistribution.yml] (resource
    [PaywallDemoLambdaEdgeFunction], template lines 233-401), and the
    properties of its request handler.

    JavaScript strings are modelled by [string]; the cookie values, the
    request paths and the token segments the function handles are ASCII
    (HTTP header text, percent-encoded paths, base64url and JSON claims).
    What Node.js itself provides (Buffer, JSON.parse, the crypto module,
    number formatting) is the interface [NodeRuntime]; what CloudFormation
    substitutes into the template is the interface [Deployment]. *)

From Stdlib Require Import String Ascii List ZArith QArith Bool Lia DecimalString.
From stdpp Require Import base option list gmap strings.

Set Warnings "-register-all".
Local Open Scope string_scope.

(** ** String operations of the JavaScript standard library *)

(** [s.split(sep)] for a one-character separator: never the empty array. *)
Fixpoint split (sep : ascii) (s : string) : list string :=
  match s with
  | EmptyString => [EmptyString]
  | String c rest =>
      if Ascii.eqb c sep then EmptyString :: split sep rest
      else match split sep rest with
           | w :: ws => String c w :: ws
           | [] => [String c EmptyString]
           end
  end.

(** [s.indexOf(pat)]: position of the first occurrence, or -1. *)
Definition indexOf (s pat : string) : Z :=
  match String.index 0 pat s with
  | Some n => Z.of_nat n
  | None => (-1)%Z
  end.

(** [s.substring(n)]: what is left after the first [n] characters. *)
Fixpoint substring_from (n : nat) (s : string) : string :=
  match n, s with
  | O, _ => s
  | S _, EmptyString => EmptyString
  | S n', String _ rest => substring_from n' rest
  end.

Definition lower_ascii (c : ascii) : ascii :=
  let n := nat_of_ascii c in
  if ((65 <=? n)%nat && (n <=? 90)%nat)%bool then ascii_of_nat (n + 32) else c.

(** [s.toLowerCase()] on ASCII text. *)
Fixpoint toLowerCase (s : string) : string :=
  match s with
  | EmptyString => EmptyString
  | String c rest => String (lower_ascii c) (toLowerCase rest)
  end.

(** [c] occurs in [s]. *)
Fixpoint mentions (c : ascii) (s : string) : bool :=
  match s with
  | EmptyString => false
  | String a rest => Ascii.eqb a c || mentions c rest
  end.

(** The compact serialization of a token: three segments joined by dots. *)
Definition token (header claims signature : string) : string :=
  header +:+ "." +:+ claims +:+ "." +:+ signature.

(** ** JavaScript values and completions *)

(** A Number: the comparison of the filter needs the order only, so a
    finite double is the rational it denotes. *)
Inductive JsNumber : Type :=
  | NaN
  | NegInf
  | Fin (q : Q)
  | PosInf.

(** What [JSON.parse] can return, and [undefined]. An object lists each
    own property once, in the order of the text. *)
Inductive JsValue : Type :=
  | JUndefined
  | JNull
  | JBool (b : bool)
  | JNumber (n : JsNumber)
  | JString (s : string)
  | JArray (elems : list JsValue)
  | JObject (props : list (string * JsValue)).

Inductive JsError : Type :=
  | TypeError
  | SyntaxError
  | CryptoError.

(** The outcome of evaluating an expression or a function body: a value,
    or a thrown exception. *)
Inductive Completion (A : Type) : Type :=
  | Normal (a : A)
  | Throw (e : JsError).

Arguments Normal {A} a.
Arguments Throw {A} e.

#[global] Instance Completion_ret : MRet Completion := fun A a => Normal a.

#[global] Instance Completion_bind : MBind Completion := fun A B f c =>
  match c with
  | Normal a => f a
  | Throw e => Throw e
  end.

(** [try { body } catch (e) { handler }] *)
Definition try_catch {A : Type} (body : Completion A) (handler : JsError -> Completion A)
  : Completion A :=
  match body with
  | Normal a => Normal a
  | Throw e => handler e
  end.

(** The value an object literal yields for [obj[k]] when its own values
    are strings: an own string, a member inherited from Object.prototype
    (a function or the prototype object, never a string), [undefined], or
    the [null] that [getKey] returns from its catch block. *)
Inductive Slot : Type :=
  | SString (s : string)
  | SBuiltin
  | SUndefined
  | SNull.

Definition ObjectPrototype_names : list string :=
  [ "constructor"; "__defineGetter__"; "__defineSetter__"; "hasOwnProperty";
    "__lookupGetter__"; "__lookupSetter__"; "isPrototypeOf";
    "propertyIsEnumerable"; "toString"; "valueOf"; "__proto__";
    "toLocaleString" ].

Definition member (o : gmap string string) (k : string) : Slot :=
  match o !! k with
  | Some v => SString v
  | None => if bool_decide (k ∈ ObjectPrototype_names) then SBuiltin else SUndefined
  end.

Fixpoint own_property (props : list (string * JsValue)) (k : string) : option JsValue :=
  match props with
  | [] => None
  | (k', v) :: rest => if String.eqb k' k then Some v else own_property rest k
  end.

(** [v.k] (or [v[k]]) for a property name that no built-in prototype
    defines, as [kid], [exp] and [custom:subs] are: reading it off [null]
    or [undefined] throws, off an object gives the own property or
    [undefined], off anything else gives [undefined]. *)
Definition js_get (v : JsValue) (k : string) : Completion JsValue :=
  match v with
  | JUndefined | JNull => Throw TypeError
  | JObject props => Normal (default JUndefined (own_property props k))
  | _ => Normal JUndefined
  end.

(** Truthiness, as the conditional operator tests it. *)
Definition truthy (v : JsValue) : bool :=
  match v with
  | JUndefined | JNull => false
  | JBool b => b
  | JNumber NaN => false
  | JNumber (Fin q) => negb (Qeq_bool q 0)
  | JNumber _ => true
  | JString s => negb (String.eqb s EmptyString)
  | JArray _ | JObject _ => true
  end.

(** ** The Node.js runtime *)

Class NodeRuntime : Type := {
  (** [Buffer.from(s, 'base64url').toString('utf8')] *)
  utf8_of_base64url : string -> string;
  (** [Buffer.from(s, 'base64url').toString('base64')] *)
  base64_of_base64url : string -> string;
  (** [JSON.parse(text)]; throws SyntaxError on text that is not JSON *)
  JSON_parse : string -> Completion JsValue;
  (** the Number a string converts to *)
  StringToNumber : string -> JsNumber;
  (** the text of a Number *)
  NumberToString : JsNumber -> string;
  (** RSA-SHA256 verification of [signature] (base64) over [data] with
      the PEM public key [pem]; throws on key material it cannot read *)
  rsa_sha256_verify : string -> string -> string -> Completion bool
}.

(** What the deployment script passes to the template: [PublicKeys] is
    [JSON.stringify] of an object from key id to PEM text
    ([createPemKeys] of deploy-script/index.js), [ApiKeyValue] the
    generated API key. *)
Class Deployment : Type := {
  KEYS : gmap string string;
  ApiKeyValue : string
}.

(** ** Coercions of the language *)

Section Coercions.
Context {runtime : NodeRuntime}.

(** ToString. An array joins its elements with commas, [null] and
    [undefined] elements as the empty text. An object parsed from JSON
    inherits [toString] (giving [[object Object]]) unless an own
    property of that name, which is never callable, hides it: then
    neither [toString] nor [valueOf] gives a primitive. *)
Fixpoint ToString (v : JsValue) : Completion string :=
  match v with
  | JUndefined => Normal "undefined"
  | JNull => Normal "null"
  | JBool true => Normal "true"
  | JBool false => Normal "false"
  | JNumber n => Normal (NumberToString n)
  | JString s => Normal s
  | JArray elems =>
      (fix join (l : list JsValue) : Completion string :=
         match l with
         | [] => Normal EmptyString
         | x :: rest =>
             let elem := match x with
                         | JUndefined | JNull => Normal EmptyString
                         | _ => ToString x
                         end in
             match rest with
             | [] => elem
             | _ :: _ => s ← elem; r ← join rest; Normal (s +:+ "," +:+ r)
             end
         end) elems
  | JObject props =>
      match own_property props "toString" with
      | Some _ => Throw TypeError
      | None => Normal "[object Object]"
      end
  end.

(** ToNumber. *)
Definition ToNumber (v : JsValue) : Completion JsNumber :=
  match v with
  | JUndefined => Normal NaN
  | JNull => Normal (Fin 0)
  | JBool true => Normal (Fin 1)
  | JBool false => Normal (Fin 0)
  | JNumber n => Normal n
  | JString s => Normal (StringToNumber s)
  | JArray _ | JObject _ => s ← ToString v; Normal (StringToNumber s)
  end.

(** ToPropertyKey, for [obj[v]]. *)
Definition ToPropertyKey (v : JsValue) : Completion string := ToString v.
End Coercions.

(** [a < b] on Numbers; false whenever either is NaN. *)
Definition number_lt (a b : JsNumber) : bool :=
  match a, b with
  | NaN, _ => false
  | _, NaN => false
  | NegInf, NegInf => false
  | NegInf, _ => true
  | Fin _, NegInf => false
  | Fin x, Fin y => negb (Qle_bool y x)
  | Fin _, PosInf => true
  | PosInf, _ => false
  end.

(** [x < y] where [y] is a Number. *)
Definition less_than {runtime : NodeRuntime} (x : JsValue) (y : JsNumber) : Completion bool :=
  nx ← ToNumber x; Normal (number_lt nx y).

(** ** CloudFront events *)

(** One entry of a header: [{ key: ..., value: ... }]; the entries the
    function writes carry no [key]. *)
Record HeaderEntry : Type := mkEntry {
  key : option string;
  value : string
}.

(** [event.Records[0].cf.request]; [headers] is keyed by the lower-case
    header name. *)
Record Request : Type := mkRequest {
  clientIp : string;
  method : string;
  uri : string;
  querystring : string;
  headers : gmap string (list HeaderEntry)
}.

Record Response : Type := mkResponse {
  status : string;
  statusDescription : string;
  response_headers : gmap string (list HeaderEntry);
  body : string
}.

(** What the handler resolves to: the request, sent on to the cache and
    the origin, or a response generated at the edge. *)
Inductive Outcome : Type :=
  | Forward (request : Request)
  | Respond (response : Response).

(** [request.headers[name] = entries] *)
Definition set_header (name : string) (entries : list HeaderEntry) (request : Request)
  : Request :=
  {| clientIp := clientIp request;
     method := method request;
     uri := uri request;
     querystring := querystring request;
     headers := <[name := entries]> (headers request) |}.

(** ** The function (template lines 233-401) *)

(** Response when JWT is missing or invalid (lines 251-261). *)
Definition response401 : Response :=
  {| status := "401";
     statusDescription := "Not authorized";
     response_headers := {[ "content-type" := [mkEntry (Some "Content-Type") "text/html"] ]};
     body := "Please login" |}.

(** Map product from url to code (lines 266-269). *)
Definition mapping : gmap string string :=
  <["product-a" := "A"]> (<["product-b" := "B"]> ∅).

Definition STR : string := "jwt=".

(** [a + '.' + b] where [b] may be [undefined]. *)
Definition concat_dot (a b : option string) : string :=
  default "undefined" a +:+ "." +:+ default "undefined" b.

Section Function.
Context {runtime : NodeRuntime} {deployment : Deployment}.

(** Lines 272-274. [Buffer.from] throws a TypeError on [undefined]. *)
Definition base64urlDecode (str : option string) : Completion string :=
  match str with
  | Some s => Normal (utf8_of_base64url s)
  | None => Throw TypeError
  end.

(** Lines 276-278. *)
Definition base64urlToBase64 (str : option string) : Completion string :=
  match str with
  | Some s => Normal (base64_of_base64url s)
  | None => Throw TypeError
  end.

(** Lines 284-292: [KEYS[kid]], and [null] if computing the property key
    throws. *)
Definition getKey (kid : JsValue) : Completion Slot :=
  try_catch (k ← ToPropertyKey kid; Normal (member KEYS k)) (fun _ => Normal SNull).

(** [verifyFunction.verify(key, signature, 'base64')] after the signed
    text was written: anything but PEM text for [key] is a TypeError. *)
Definition verifyFunction_verify (key : Slot) (data signature : string) : Completion bool :=
  match key with
  | SString pem => rsa_sha256_verify pem data signature
  | SBuiltin | SUndefined | SNull => Throw TypeError
  end.

(** The [try] block of [verify] (lines 296-305). *)
Definition verify_try (jwt : string) : Completion bool :=
  let segments := split "." jwt in
  let header := segments !! 0%nat in
  text ← base64urlDecode header;
  headerObj ← JSON_parse text;
  let payload := segments !! 1%nat in
  let signature := segments !! 2%nat in
  let data := concat_dot header payload in
  kid ← js_get headerObj "kid";
  base64Signature ← base64urlToBase64 signature;
  key ← getKey kid;
  verifyFunction_verify key data base64Signature.

(** Lines 294-311. *)
Definition verify (jwt : string) : Completion bool :=
  try_catch (verify_try jwt) (fun _ => Normal false).

(** Helper gets the JWT claims as a JSON object (lines 314-323). *)
Definition getObj (jwt : string) : Completion JsValue :=
  let jwtPayload := split "." jwt !! 1%nat in
  str ← base64urlDecode jwtPayload;
  try_catch (JSON_parse str) (fun _ => Normal (JArray [])).

(** Check if the jwt is expired (lines 326-335); [now] is
    [(+ new Date()) / 1000], the clock reading in seconds. *)
Definition isExpired (now : Q) (jwtObj : JsValue) : Completion bool :=
  expiration ← js_get jwtObj "exp";
  before ← less_than expiration (Fin now);
  if (before : bool) then Normal true else Normal false.

(** The loop of lines 354-359; [None] is the [null] that [jwt] starts as. *)
Fixpoint find_jwt (cookie : list HeaderEntry) : option string :=
  match cookie with
  | [] => None
  | entry :: rest =>
      if (0 <=? indexOf (value entry) STR)%Z
      then Some (substring_from (String.length STR) (value entry))
      else find_jwt rest
  end.

(** Lines 347-360. *)
Definition cookie_jwt (request : Request) : option string :=
  match headers request !! "cookie" with
  | Some cookie => find_jwt cookie
  | None => None
  end.

(** [obj['custom:subs'] ? obj['custom:subs'].split(',') : []] (line 378):
    only a string has a [split] to call. *)
Definition subscriptions (obj : JsValue) : Completion (list string) :=
  subs ← js_get obj "custom:subs";
  if truthy subs then
    match subs with
    | JString s => Normal (split "," s)
    | _ => Throw TypeError
    end
  else Normal [].

(** [subs.includes(code)]: [subs] holds strings only. *)
Definition includes (subs : list string) (code : Slot) : bool :=
  match code with
  | SString c => bool_decide (c ∈ subs)
  | SBuiltin | SUndefined | SNull => false
  end.

(** Lines 378-400: the entitlement decision and the header rewrite. *)
Definition entitle (request : Request) (obj : JsValue) : Completion Outcome :=
  subs ← subscriptions obj;
  match split "/" (uri request) !! 1%nat with
  | None => Normal (Forward request)
  | Some productFromUrl =>
      if String.eqb productFromUrl EmptyString then Normal (Forward request)
      else
        let request' :=
          if includes subs (member mapping (toLowerCase productFromUrl))
          then set_header "x-is-subscriber" [mkEntry None "true"] request
          else set_header "x-is-subscriber" [mkEntry None "false"] request in
        Normal (Forward (set_header "x-api-key" [mkEntry None ApiKeyValue] request'))
  end.

(** Lines 347-400: what the handler does with a GET request. *)
Definition authorize (now : Q) (request : Request) : Completion Outcome :=
  match cookie_jwt request with
  | None => Normal (Respond response401)
  | Some jwt =>
      if String.eqb jwt EmptyString then Normal (Respond response401)
      else
        verified ← verify jwt;
        if negb verified then Normal (Respond response401)
        else
          obj ← getObj jwt;
          expired ← isExpired now obj;
          if (expired : bool) then Normal (Respond response401)
          else entitle request obj
  end.

(** Entry point (lines 338-401). *)
Definition handler (now : Q) (request : Request) : Completion Outcome :=
  if negb (String.eqb (method request) "GET") then Normal (Forward request)
  else authorize now request.

End Function.

(** ** The behaviour the specification describes for token extraction *)

(** The first cookie entry whose value begins with [jwt=], and what
    follows the prefix (specification 4.5, Start to CookieExtracted). *)
Fixpoint spec_find_jwt (cookie : list HeaderEntry) : option string :=
  match cookie with
  | [] => None
  | entry :: rest =>
      if String.prefix STR (value entry)
      then Some (substring_from (String.length STR) (value entry))
      else spec_find_jwt rest
  end.

(** ** Vocabulary of the properties *)

(** Two requests that differ at most in the values of the headers
    x-is-subscriber and x-api-key. *)
Definition same_but_trust_headers (r1 r2 : Request) : Prop :=
  clientIp r1 = clientIp r2 /\ method r1 = method r2 /\ uri r1 = uri r2 /\
  querystring r1 = querystring r2 /\
  forall name : string,
    name <> "x-is-subscriber" -> name <> "x-api-key" ->
    headers r1 !! name = headers r2 !! name.

(** The request as the function forwards it for a product segment:
    marked as subscriber or not, with the API key. *)
Definition marked {deployment : Deployment} (subscriber : string) (request : Request) : Request :=
  set_header "x-api-key" [mkEntry None ApiKeyValue]
    (set_header "x-is-subscriber" [mkEntry None subscriber] request).

(** ** A runtime, a deployment and tokens to run the function on

    [TestRuntime] decodes base64url as Node.js does on text of that
    alphabet, and answers [JSON.parse] and the signature check for the
    texts of the test tokens only, as Node.js would answer them. The
    numbers of the test tokens are non-negative integers, and these are
    what its number conversions cover. *)

Module TestVectors.

Definition sextet (c : ascii) : option N :=
  let n := N_of_ascii c in
  if ((65 <=? n) && (n <=? 90))%N then Some (n - 65)%N
  else if ((97 <=? n) && (n <=? 122))%N then Some (n - 71)%N
  else if ((48 <=? n) && (n <=? 57))%N then Some (n + 4)%N
  else if (n =? 45)%N then Some 62%N
  else if (n =? 95)%N then Some 63%N
  else None.

Fixpoint sextets (s : string) : list N :=
  match s with
  | EmptyString => []
  | String c rest =>
      match sextet c with
      | Some v => v :: sextets rest
      | None => sextets rest
      end
  end.

Fixpoint bytes_of_sextets (l : list N) : string :=
  match l with
  | a :: b :: c :: d :: rest =>
      let n := (a * 262144 + b * 4096 + c * 64 + d)%N in
      String (ascii_of_N (n / 65536))
        (String (ascii_of_N ((n / 256) mod 256))
           (String (ascii_of_N (n mod 256)) (bytes_of_sextets rest)))
  | [a; b; c] =>
      let n := (a * 4096 + b * 64 + c)%N in
      String (ascii_of_N (n / 1024)) (String (ascii_of_N ((n / 4) mod 256)) EmptyString)
  | [a; b] => String (ascii_of_N ((a * 64 + b) / 16)) EmptyString
  | _ => EmptyString
  end.

Definition decode (s : string) : string := bytes_of_sextets (sextets s).

(** base64url to base64: the two alphabets differ in [-] and [_], and
    base64 pads to a multiple of four. *)
Fixpoint to_base64_alphabet (s : string) : string :=
  match s with
  | EmptyString => EmptyString
  | String c rest =>
      String (if Ascii.eqb c "-" then "+"%char else if Ascii.eqb c "_" then "/"%char else c)
        (to_base64_alphabet rest)
  end.

Definition to_base64 (s : string) : string :=
  let t := to_base64_alphabet s in
  match (String.length t mod 4)%nat with
  | 2%nat => t +:+ "=="
  | 3%nat => t +:+ "="
  | _ => t
  end.

(** Token segments: the base64url text of
    - [header_K1]: kid K1;  [header_K9]: kid K9
    - [claims_AB]: exp 2000000000, custom:subs A,B
    - [claims_old]: exp 1000, custom:subs A,B
    - [claims_noexp]: custom:subs A
    - [claims_cut]: the text of [claims_AB] cut after the exp number,
      which is not JSON
    - [signature_K1]: stands for a signature made with the key K1. *)
Definition header_K1 : string := "eyJraWQiOiJLMSJ9".
Definition header_K9 : string := "eyJraWQiOiJLOSJ9".
Definition claims_AB : string := "eyJleHAiOjIwMDAwMDAwMDAsImN1c3RvbTpzdWJzIjoiQSxCIn0".
Definition claims_old : string := "eyJleHAiOjEwMDAsImN1c3RvbTpzdWJzIjoiQSxCIn0".
Definition claims_noexp : string := "eyJjdXN0b206c3VicyI6IkEifQ".
Definition claims_cut : string := "eyJleHAiOjIwMDAwMDAwMDA".
Definition signature_K1 : string := "c2lnbmVkLWJ5LUsx".

Definition pem_K1 : string := "-----BEGIN PUBLIC KEY----- K1 -----END PUBLIC KEY-----".

(** The texts the identity provider signed with K1, each with its
    signature. *)
Definition issued : list (string * string) :=
  map (fun claims => (header_K1 +:+ "." +:+ claims, to_base64 signature_K1))
    [claims_AB; claims_old; claims_noexp; claims_cut].

(** What [JSON.parse] gives for the decoded segments; the text of
    [claims_cut] is not in the table. *)
Definition headerObj_K1 : JsValue := JObject [("kid", JString "K1")].
Definition headerObj_K9 : JsValue := JObject [("kid", JString "K9")].
Definition claimsObj_AB : JsValue :=
  JObject [("exp", JNumber (Fin 2000000000)); ("custom:subs", JString "A,B")].
Definition claimsObj_old : JsValue :=
  JObject [("exp", JNumber (Fin 1000)); ("custom:subs", JString "A,B")].
Definition claimsObj_noexp : JsValue := JObject [("custom:subs", JString "A")].

Definition parse_table : list (string * JsValue) :=
  [ (decode header_K1, headerObj_K1);
    (decode header_K9, headerObj_K9);
    (decode claims_AB, claimsObj_AB);
    (decode claims_old, claimsObj_old);
    (decode claims_noexp, claimsObj_noexp) ].

Definition digit (c : ascii) : option N :=
  let n := N_of_ascii c in
  if ((48 <=? n) && (n <=? 57))%N then Some (n - 48)%N else None.

Fixpoint digits (acc : N) (s : string) : option N :=
  match s with
  | EmptyString => Some acc
  | String c rest =>
      match digit c with
      | Some d => digits (acc * 10 + d)%N rest
      | None => None
      end
  end.

#[export] Instance TestRuntime : NodeRuntime := {|
  utf8_of_base64url := decode;
  base64_of_base64url := to_base64;
  JSON_parse text :=
    match own_property parse_table text with
    | Some v => Normal v
    | None => Throw SyntaxError
    end;
  StringToNumber s :=
    match digits 0 s with
    | Some n => Fin (inject_Z (Z.of_N n))
    | None => NaN
    end;
  NumberToString n :=
    match n with
    | NaN => "NaN"
    | NegInf => "-Infinity"
    | PosInf => "Infinity"
    | Fin q => NilZero.string_of_int (Z.to_int (Qnum q / Z.pos (Qden q)))
    end;
  rsa_sha256_verify pem data signature :=
    if String.eqb pem pem_K1 then Normal (bool_decide ((data, signature) ∈ issued))
    else Throw CryptoError
|}.

#[export] Instance TestDeployment : Deployment := {|
  KEYS := {[ "K1" := pem_K1 ]};
  ApiKeyValue := "0123456789abcdef"
|}.

(** The clock reading of the examples, in seconds. *)
Definition clock : Q := 1700000000.

Definition cookie_of (tok : string) : list HeaderEntry :=
  [mkEntry (Some "Cookie") (STR +:+ tok)].

Definition get (path : string) (extra : gmap string (list HeaderEntry)) : Request :=
  {| clientIp := "203.0.113.178"; method := "GET"; uri := path;
     querystring := EmptyString; headers := extra |}.

Definition with_token (path tok : string) : Request :=
  get path {[ "cookie" := cookie_of tok ]}.

(** A request of another method, without a cookie. *)
Definition without_token (verb path : string) : Request :=
  {| clientIp := "203.0.113.178"; method := verb; uri := path;
     querystring := EmptyString; headers := ∅ |}.

(** A request in which the client itself claims to be a subscriber and
    guesses at the API key. *)
Definition forged (path tok : string) : Request :=
  get path
    (<["x-is-subscriber" := [mkEntry (Some "X-Is-Subscriber") "true"]]>
       (<["x-api-key" := [mkEntry (Some "X-Api-Key") "guess"]]>
          {[ "cookie" := cookie_of tok ]})).

End TestVectors.

(** ** The mock origin (template lines 66-107) *)

Module MockOrigin.

(** The proxy event of API Gateway, as far as the function reads it;
    [headers] is [null] for a request without headers. *)
Record Event : Type := mkEvent {
  path : string;
  headers : option (gmap string string)
}.

Record Result : Type := mkResult {
  statusCode : Z;
  body : string
}.

(** [!v] for a value that is a string or [undefined]. *)
Definition missing (v : option string) : bool :=
  match v with
  | None => true
  | Some s => String.eqb s EmptyString
  end.

(** [JSON.stringify(s)] for text with nothing to escape: [s] in double
    quotes. *)
Definition JSON_stringify_text (s : string) : string :=
  String "034"%char (s +:+ String "034"%char EmptyString).

(** Lines 71-107. *)
Definition handler (event : Event) : Completion Result :=
  let pathTokens := split "/" (path event) in
  let productName := pathTokens !! 1%nat in
  let contentId := pathTokens !! 3%nat in
  if missing productName || missing contentId then
    Normal {| statusCode := 400; body := JSON_stringify_text "Invalid URL" |}
  else
    match headers event with
    | None => Throw TypeError
    | Some hs =>
        let isSubscriber := hs !! "X-Is-Subscriber" in
        if bool_decide (isSubscriber = Some "true")
        then Normal {| statusCode := 200; body := "Full content" |}
        else Normal {| statusCode := 200; body := "Preview only" |}
    end.

End MockOrigin.

(** ** The deployment script (deploy-script/index.js) *)

Section Deploy.
Context {runtime : NodeRuntime}.

(** [jwkToPem] of the npm module jwk-to-pem: the PEM text of a JSON Web
    Key, or an exception for a key it cannot convert. *)
Variable jwkToPem : JsValue -> Completion string.

(** [allKeys[kid] = pem] on an object that began as [{}]: the inherited
    setter of [__proto__] ignores a string, every other name becomes an
    own property. *)
Definition assign (allKeys : gmap string string) (kid pem : string) : gmap string string :=
  if String.eqb kid "__proto__" then allKeys else <[kid := pem]> allKeys.

(** The callback of [keysArray.map] (lines 36-40), run over the array
    from left to right. *)
Fixpoint createPemKeys_from (allKeys : gmap string string) (keysArray : list JsValue)
  : Completion (gmap string string) :=
  match keysArray with
  | [] => Normal allKeys
  | k :: rest =>
      kid ← js_get k "kid";
      pem ← jwkToPem k;
      name ← ToPropertyKey kid;
      createPemKeys_from (assign allKeys name pem) rest
  end.

(** Lines 33-43. *)
Definition createPemKeys (keysArray : list JsValue) : Completion (gmap string string) :=
  createPemKeys_from ∅ keysArray.

End Deploy.

(** The deployment that [main] makes of a key set and an API key
    (lines 139-161 pass them to the template as PublicKeys and
    ApiKeyValue). *)
Definition deployed (pemKeys : gmap string string) (apiKeyValue : string) : Deployment :=
  {| KEYS := pemKeys; ApiKeyValue := apiKeyValue |}.

(** ** The cleanup script (cleanup-script/cleanup-script.js) *)

Module Cleanup.

(** [props[k] = v] on the own properties of an object: an existing
    property keeps its place. *)
Fixpoint set_property (props : list (string * JsValue)) (k : string) (v : JsValue)
  : list (string * JsValue) :=
  match props with
  | [] => [(k, v)]
  | (k', v') :: rest =>
      if String.eqb k' k then (k, v) :: rest else (k', v') :: set_property rest k v
  end.

(** The answer of [getDistributionConfig] in the shape the SDK declares
    for it, and the request of [updateDistribution] that the script
    turns it into. A cache behavior, the default cache behavior and the
    settings the script does not name are objects given by their own
    properties; [None] is a member that is [undefined] or [null]. *)
Record cache_behaviors : Type := mkBehaviors {
  Quantity : Z;
  Items : option (list (list (string * JsValue)))
}.

Record distribution_config : Type := mkDistributionConfig {
  CacheBehaviors : option cache_behaviors;
  DefaultCacheBehavior : list (string * JsValue);
  settings : list (string * JsValue)
}.

Record config : Type := mkConfig {
  ETag : option string;
  Id : option string;
  IfMatch : option string;
  DistributionConfig : option distribution_config
}.

(** [config?.DistributionConfig?.CacheBehaviors?.Items] *)
Definition items_of (c : config) : option (list (list (string * JsValue))) :=
  match DistributionConfig c with
  | None => None
  | Some dc =>
      match CacheBehaviors dc with
      | None => None
      | Some cb => Items cb
      end
  end.

(** [{ Quantity: 0, Items: [] }] *)
Definition no_associations : JsValue :=
  JObject [("Quantity", JNumber (Fin 0)); ("Items", JArray [])].

(** The body of the loop of lines 84-87, for one item. *)
Definition disassociate (item : list (string * JsValue)) : list (string * JsValue) :=
  set_property item "LambdaFunctionAssociations" no_associations.

(** Lines 72-90; [id] is [null] when no distribution id was found. *)
Definition updateConfigJson (id : option string) (c : config) : config :=
  let value := ETag c in
  let c' := {| ETag := None; Id := id; IfMatch := value;
               DistributionConfig := DistributionConfig c |} in
  match items_of c' with
  | None => c'
  | Some items =>
      {| ETag := None; Id := id; IfMatch := value;
         DistributionConfig :=
           match DistributionConfig c with
           | None => None
           | Some dc =>
               Some {| CacheBehaviors :=
                         match CacheBehaviors dc with
                         | None => None
                         | Some cb =>
                             Some {| Quantity := Quantity cb;
                                     Items := Some (map disassociate items) |}
                         end;
                       DefaultCacheBehavior := DefaultCacheBehavior dc;
                       settings := settings dc |}
           end |}
  end.

(** One stack of the answer of [describeStacks], with its outputs. *)
Record output : Type := mkOutput {
  OutputKey : string;
  OutputValue : string
}.

Record stack : Type := mkStack {
  StackName : string;
  Outputs : list output
}.

(** Lines 30-47, given the answer of [describeStacks]; [None] is the
    [null] that [id] starts as. *)
Definition getDistributionId (stack2 : string) (Stacks : list stack) : option string :=
  fold_left
    (fun id s =>
       if String.eqb (StackName s) stack2 then
         fold_left
           (fun id o =>
              if String.eqb (OutputKey o) "CFDistributionId" then Some (OutputValue o) else id)
           (Outputs s) id
       else id)
    Stacks None.

(** The values of the CFDistributionId outputs of the stacks named
    [stack2], in the order of the answer. *)
Definition distribution_ids (stack2 : string) (Stacks : list stack) : list string :=
  flat_map
    (fun s =>
       if String.eqb (StackName s) stack2 then
         map OutputValue
           (filter (fun o => OutputKey o = "CFDistributionId") (Outputs s))
       else [])
    Stacks.

(** Lines 132-154. [answers] are the statuses that the successive calls
    of [getDistribution] will read, each after a wait of fifteen minutes;
    a call that fails is a [Throw]. The result comes with the number of
    calls made; [None] when the function is still waiting after the last
    answer given. *)
Fixpoint distributionIsDeployed (answers : list (Completion string)) (counter : Z)
  : option (Completion bool * nat) :=
  match answers with
  | [] => None
  | Throw e :: _ => Some (Throw e, 1%nat)
  | Normal status :: rest =>
      if String.eqb status "Deployed" then Some (Normal true, 1%nat)
      else if (counter =? 3)%Z then Some (Normal false, 1%nat)
      else
        match distributionIsDeployed rest (counter + 1)%Z with
        | Some (result, calls) => Some (result, S calls)
        | None => None
        end
  end.

Definition firstStackName : string := "paywalldemo-userpool-stack".

(** Lines 158-171: the two stack names of the command line, put in
    order; [None] is the exit with status 1 when one is missing. *)
Definition stack_names (argv2 argv3 : option string) : option (string * string) :=
  match argv2, argv3 with
  | Some stack1, Some stack2 =>
      if String.eqb stack1 EmptyString || String.eqb stack2 EmptyString then None
      else if negb (String.prefix firstStackName stack1) then Some (stack2, stack1)
      else Some (stack1, stack2)
  | _, _ => None
  end.

End Cleanup.

(** ** Further tokens, keys and answers to run the code on *)

Module MoreVectors.
Import TestVectors.

(** Claims that a key holder could sign and that are no claims object:
    [claims_null] is the base64url text of the JSON null, and
    [claims_number] that of an object whose custom:subs is the number 5. *)
Definition claims_null : string := "bnVsbA".
Definition claims_number : string := "eyJjdXN0b206c3VicyI6NX0".
Definition claimsObj_number : JsValue := JObject [("custom:subs", JNumber (Fin 5))].

Definition issued : list (string * string) :=
  map (fun claims => (header_K1 +:+ "." +:+ claims, to_base64 signature_K1))
    [claims_AB; claims_old; claims_noexp; claims_null; claims_number].

Definition parse_table : list (string * JsValue) :=
  (decode claims_null, JNull) :: (decode claims_number, claimsObj_number)
  :: TestVectors.parse_table.

(** [TestRuntime] with the two further claims texts. *)
Definition runtime : NodeRuntime := {|
  utf8_of_base64url := decode;
  base64_of_base64url := to_base64;
  JSON_parse text :=
    match own_property parse_table text with
    | Some v => Normal v
    | None => Throw SyntaxError
    end;
  StringToNumber := StringToNumber (NodeRuntime := TestRuntime);
  NumberToString := NumberToString (NodeRuntime := TestRuntime);
  rsa_sha256_verify pem data signature :=
    if String.eqb pem pem_K1 then Normal (bool_decide ((data, signature) ∈ issued))
    else Throw CryptoError
|}.

(** The key set of an identity provider, as [JSON.parse] gives it: an
    RSA key K1, an older key under the same kid before it, and a key K2. *)
Definition jwk (kid modulus : string) : JsValue :=
  JObject [("kid", JString kid); ("kty", JString "RSA"); ("n", JString modulus);
           ("e", JString "AQAB")].

Definition jwk_K1_old : JsValue := jwk "K1" "K1-old".
Definition jwk_K1 : JsValue := jwk "K1" "K1".
Definition jwk_K2 : JsValue := jwk "K2" "K2".

(** A stand-in for [jwkToPem]: the PEM armour around the modulus of an
    RSA key, a TypeError for anything else. *)
Definition jwkToPem (k : JsValue) : Completion string :=
  match k with
  | JObject props =>
      match own_property props "kty", own_property props "n" with
      | Some (JString kty), Some (JString n) =>
          if String.eqb kty "RSA"
          then Normal ("-----BEGIN PUBLIC KEY----- " +:+ n +:+ " -----END PUBLIC KEY-----")
          else Throw TypeError
      | _, _ => Throw TypeError
      end
  | _ => Throw TypeError
  end.





End MoreVectors.

(** * Properties *)

(** ** Strings *)

Lemma split_nonempty (sep : ascii) (s : string) : split sep s <> [].
Proof.
  destruct s as [|c rest]; simpl; [discriminate|].
  destruct (Ascii.eqb c sep); [discriminate|].
  destruct (split sep rest); discriminate.
Qed.

Lemma split_free (sep : ascii) (s : string) :
  mentions sep s = false -> split sep s = [s].
Proof.
  induction s as [|c rest IH]; simpl; intros Hm; [reflexivity|].
  apply orb_false_iff in Hm as [Hc Hrest].
  rewrite Hc, (IH Hrest). reflexivity.
Qed.

Lemma split_append (sep : ascii) (a b : string) :
  mentions sep a = false -> split sep (a +:+ String sep b) = a :: split sep b.
Proof.
  induction a as [|c rest IH]; simpl; intros Hm.
  - rewrite Ascii.eqb_refl. reflexivity.
  - apply orb_false_iff in Hm as [Hc Hrest].
    rewrite Hc, (IH Hrest). reflexivity.
Qed.

Lemma split_token (h p s : string) :
  mentions "." h = false -> mentions "." p = false -> mentions "." s = false ->
  split "." (token h p s) = [h; p; s].
Proof.
  intros Hh Hp Hs. unfold token.
  change ("." +:+ p +:+ "." +:+ s) with (String "." (p +:+ String "." s)).
  rewrite (split_append _ _ _ Hh), (split_append _ _ _ Hp), (split_free _ _ Hs).
  reflexivity.
Qed.

Lemma indexOf_prefixed (t : string) : indexOf (STR +:+ t) STR = 0%Z.
Proof. unfold indexOf, STR. simpl. destruct t; reflexivity. Qed.

(** ** The steps of the function *)

Section Properties.
Context {runtime : NodeRuntime} {deployment : Deployment}.

Lemma bind_Normal {A B : Type} (f : A -> Completion B) (a : A) : (Normal a ≫= f) = f a.
Proof. reflexivity. Qed.

Lemma find_jwt_first (before after : list HeaderEntry) (entry : HeaderEntry) (t : string) :
  Forall (fun e => (indexOf (value e) STR < 0)%Z) before ->
  value entry = STR +:+ t ->
  find_jwt (before ++ entry :: after) = Some t.
Proof.
  intros Hbefore Hentry.
  induction Hbefore as [|e rest He _ IH]; simpl.
  - rewrite Hentry, indexOf_prefixed. reflexivity.
  - destruct (Z.leb_spec 0 (indexOf (value e) STR)); [lia | exact IH].
Qed.

Lemma verify_total (jwt : string) : exists b, verify jwt = Normal b.
Proof. unfold verify, try_catch. destruct (verify_try jwt); eauto. Qed.

Lemma verify_true_try (jwt : string) :
  verify jwt = Normal true <-> verify_try jwt = Normal true.
Proof.
  unfold verify, try_catch. destruct (verify_try jwt); split; congruence.
Qed.

(** A token that verifies has a signature segment, so a claims segment. *)
Lemma verify_true_segments (jwt : string) :
  verify jwt = Normal true ->
  exists p s, split "." jwt !! 1%nat = Some p /\ split "." jwt !! 2%nat = Some s.
Proof.
  intros Hv. apply verify_true_try in Hv. unfold verify_try in Hv.
  destruct (split "." jwt) as [|h [|p [|s rest]]]; simpl in Hv.
  - discriminate.
  - destruct (JSON_parse _) as [hdr|]; [|discriminate]. rewrite bind_Normal in Hv.
    destruct (js_get hdr "kid"); discriminate.
  - destruct (JSON_parse _) as [hdr|]; [|discriminate]. rewrite bind_Normal in Hv.
    destruct (js_get hdr "kid"); discriminate.
  - eauto.
Qed.

Lemma verify_true_not_empty (jwt : string) :
  verify jwt = Normal true -> String.eqb jwt EmptyString = false.
Proof.
  intros Hv. destruct (verify_true_segments jwt Hv) as (p & s & Hp & _).
  destruct jwt; [discriminate | reflexivity].
Qed.

(** After a successful [verify], [getObj] cannot throw. *)
Lemma getObj_after_verify (jwt : string) :
  verify jwt = Normal true -> exists obj, getObj jwt = Normal obj.
Proof.
  intros Hv. destruct (verify_true_segments jwt Hv) as (p & s & Hp & _).
  unfold getObj. rewrite Hp. simpl.
  unfold try_catch. destruct (JSON_parse _); eauto.
Qed.

Lemma handler_GET (now : Q) (request : Request) :
  method request = "GET" -> handler now request = authorize now request.
Proof. intros Hm. unfold handler. rewrite Hm. reflexivity. Qed.

Lemma handler_other (now : Q) (request : Request) :
  method request <> "GET" -> handler now request = Normal (Forward request).
Proof.
  intros Hm. unfold handler.
  destruct (String.eqb_spec (method request) "GET"); [contradiction | reflexivity].
Qed.

Lemma authorize_missing (now : Q) (request : Request) :
  cookie_jwt request = None \/ cookie_jwt request = Some EmptyString ->
  authorize now request = Normal (Respond response401).
Proof. unfold authorize. intros [-> | ->]; reflexivity. Qed.

Lemma authorize_unverified (now : Q) (request : Request) (jwt : string) :
  cookie_jwt request = Some jwt -> verify jwt = Normal false ->
  authorize now request = Normal (Respond response401).
Proof.
  intros Hc Hv. unfold authorize. rewrite Hc, Hv.
  destruct (String.eqb jwt EmptyString); reflexivity.
Qed.

Lemma authorize_verified (now : Q) (request : Request) (jwt : string) (obj : JsValue) :
  cookie_jwt request = Some jwt -> verify jwt = Normal true -> getObj jwt = Normal obj ->
  authorize now request =
    (expired ← isExpired now obj;
     if (expired : bool) then Normal (Respond response401) else entitle request obj).
Proof.
  intros Hc Hv Ho. unfold authorize.
  rewrite Hc, (verify_true_not_empty jwt Hv), Hv, bind_Normal. simpl.
  rewrite Ho, bind_Normal. reflexivity.
Qed.

Lemma authorize_expired (now : Q) (request : Request) (jwt : string) (obj : JsValue) :
  cookie_jwt request = Some jwt -> getObj jwt = Normal obj ->
  isExpired now obj = Normal true ->
  authorize now request = Normal (Respond response401).
Proof.
  intros Hc Ho He. destruct (verify_total jwt) as [[|] Hv].
  - rewrite (authorize_verified now request jwt obj Hc Hv Ho), He. reflexivity.
  - exact (authorize_unverified now request jwt Hc Hv).
Qed.

Lemma authorize_unexpired (now : Q) (request : Request) (jwt : string) (obj : JsValue) :
  cookie_jwt request = Some jwt -> verify jwt = Normal true -> getObj jwt = Normal obj ->
  isExpired now obj = Normal false ->
  authorize now request = entitle request obj.
Proof.
  intros Hc Hv Ho He.
  rewrite (authorize_verified now request jwt obj Hc Hv Ho), He. reflexivity.
Qed.

Lemma isExpired_bool (now : Q) (obj : JsValue) (e : JsValue) (b : bool) :
  js_get obj "exp" = Normal e -> less_than e (Fin now) = Normal b ->
  isExpired now obj = Normal b.
Proof.
  intros Hg Hl. unfold isExpired. rewrite Hg, bind_Normal, Hl, bind_Normal.
  destruct b; reflexivity.
Qed.

Lemma entitle_never_responds (request : Request) (obj : JsValue) (response : Response) :
  entitle request obj <> Normal (Respond response).
Proof.
  unfold entitle. destruct (subscriptions obj) as [subs|e]; [|discriminate].
  rewrite bind_Normal.
  destruct (split "/" (uri request) !! 1%nat) as [seg|]; [|discriminate].
  destruct (String.eqb seg EmptyString); discriminate.
Qed.

Lemma mapping_codes (k code : string) :
  mapping !! k = Some code ->
  (k = "product-a" /\ code = "A") \/ (k = "product-b" /\ code = "B").
Proof.
  unfold mapping. intros Hk.
  apply lookup_insert_Some in Hk as [[<- <-] | [_ Hk]]; [left; done|].
  apply lookup_insert_Some in Hk as [[<- <-] | [_ Hk]]; [right; done|].
  rewrite lookup_empty in Hk. discriminate.
Qed.

(** The keys of the mapping are in lower case: a segment that is a key
    is found by the lower-case lookup of the function. *)
Lemma mapping_key_lower (seg code : string) :
  mapping !! seg = Some code -> mapping !! toLowerCase seg = Some code.
Proof.
  intros Hseg. destruct (mapping_codes seg code Hseg) as [[-> ->] | [-> ->]]; reflexivity.
Qed.

(** What the marking writes, and what it leaves. *)
Lemma marked_shows (subscriber : string) (request : Request) :
  headers (marked subscriber request) !! "x-is-subscriber" = Some [mkEntry None subscriber] /\
  headers (marked subscriber request) !! "x-api-key" = Some [mkEntry None ApiKeyValue] /\
  same_but_trust_headers request (marked subscriber request).
Proof.
  unfold marked, set_header. simpl. split; [|split].
  - rewrite lookup_insert_ne by discriminate. apply lookup_insert_eq.
  - apply lookup_insert_eq.
  - repeat split. intros name Hs Hk. simpl.
    rewrite !lookup_insert_ne by congruence. reflexivity.
Qed.

Lemma prefix_prefixed (t : string) : String.prefix STR (STR +:+ t) = true.
Proof. destruct t; reflexivity. Qed.

End Properties.

(** ** The claims about the handler *)

Section Claims.
Context {runtime : NodeRuntime} {deployment : Deployment}.

(** When the entry that carries the token is the first cookie entry
    that mentions [jwt=], a GET request with a three-segment token,
    signed by a key whose kid is in the key set, with exp in the future
    and a subscriptions claim holding the product code mapped to the
    first path segment, is forwarded marked as subscriber. *)
Lemma first_mention_token_forwarded
  (now : Q) (request : Request)
  (before after : list HeaderEntry) (entry : HeaderEntry)
  (h p s : string) (headerObj kid claims : JsValue) (k pem : string)
  (exp : Q) (subs code seg : string) :
  method request = "GET" ->
  headers request !! "cookie" = Some (before ++ entry :: after)%list ->
  Forall (fun e => (indexOf (value e) STR < 0)%Z) before ->
  value entry = STR +:+ token h p s ->
  mentions "." h = false -> mentions "." p = false -> mentions "." s = false ->
  JSON_parse (utf8_of_base64url h) = Normal headerObj ->
  js_get headerObj "kid" = Normal kid ->
  ToPropertyKey kid = Normal k ->
  KEYS !! k = Some pem ->
  rsa_sha256_verify pem (h +:+ "." +:+ p) (base64_of_base64url s) = Normal true ->
  JSON_parse (utf8_of_base64url p) = Normal claims ->
  js_get claims "exp" = Normal (JNumber (Fin exp)) ->
  (now < exp)%Q ->
  js_get claims "custom:subs" = Normal (JString subs) ->
  code ∈ split "," subs ->
  split "/" (uri request) !! 1%nat = Some seg ->
  mapping !! toLowerCase seg = Some code ->
  handler now request = Normal (Forward (marked "true" request)).
Proof.
  intros Hm Hcookie Hbefore Hentry Hh Hp Hs Hhdr Hkid Hk Hpem Hsig Hclaims Hexp Hnow
    Hsubs Hcode Hseg Hmap.
  assert (Hsplit := split_token h p s Hh Hp Hs).
  assert (Hjwt : cookie_jwt request = Some (token h p s)).
  { unfold cookie_jwt. rewrite Hcookie. exact (find_jwt_first _ _ _ _ Hbefore Hentry). }
  assert (Hv : verify (token h p s) = Normal true).
  { apply verify_true_try. unfold verify_try. rewrite Hsplit. simpl.
    rewrite Hhdr, bind_Normal, Hkid, bind_Normal.
    unfold getKey. rewrite Hk, bind_Normal. unfold member. rewrite Hpem. simpl.
    exact Hsig. }
  assert (Ho : getObj (token h p s) = Normal claims).
  { unfold getObj. rewrite Hsplit. simpl. rewrite Hclaims. reflexivity. }
  assert (He : isExpired now claims = Normal false).
  { apply (isExpired_bool now claims (JNumber (Fin exp))); [exact Hexp|].
    unfold less_than. simpl. f_equal.
    apply negb_false_iff, Qle_bool_iff, Qlt_le_weak, Hnow. }
  rewrite (handler_GET now request Hm),
    (authorize_unexpired now request _ claims Hjwt Hv Ho He).
  assert (Hcodes := mapping_codes _ _ Hmap).
  unfold entitle, subscriptions. rewrite Hsubs, bind_Normal. simpl.
  destruct (String.eqb_spec subs EmptyString) as [->|_]; simpl.
  { apply list_elem_of_singleton in Hcode. subst code.
    destruct Hcodes as [[_ ?]|[_ ?]]; discriminate. }
  rewrite Hseg.
  destruct (String.eqb_spec seg EmptyString) as [->|_].
  { destruct Hcodes as [[? _]|[? _]]; discriminate. }
  unfold member. rewrite Hmap. simpl.
  rewrite (bool_decide_eq_true_2 _ Hcode). reflexivity.
Qed.




Lemma entitle_product (request : Request) (obj : JsValue) (subs : list string) (seg : string) :
  subscriptions obj = Normal subs ->
  split "/" (uri request) !! 1%nat = Some seg -> seg <> EmptyString ->
  entitle request obj =
    Normal (Forward (marked
      (if includes subs (member mapping (toLowerCase seg)) then "true" else "false")
      request)).
Proof.
  intros Hs Hseg Hne. unfold entitle. rewrite Hs, bind_Normal, Hseg.
  destruct (String.eqb_spec seg EmptyString); [contradiction|].
  destruct (includes subs _); reflexivity.
Qed.


Lemma isExpired_without_exp (now : Q) (obj : JsValue) :
  js_get obj "exp" = Normal JUndefined -> isExpired now obj = Normal false.
Proof. intros Hg. exact (isExpired_bool now obj JUndefined false Hg eq_refl). Qed.

Lemma getObj_unparsable (jwt p : string) (e : JsError) :
  split "." jwt !! 1%nat = Some p -> JSON_parse (utf8_of_base64url p) = Throw e ->
  getObj jwt = Normal (JArray []).
Proof. intros Hp He. unfold getObj. rewrite Hp. simpl. rewrite He. reflexivity. Qed.


(** C4: a GET request whose token has an exp claim strictly less than
    the clock reading gets the fixed rejection response, whether or not
    the signature verifies and whatever the subscriptions claim holds. *)
Theorem expired_token_rejected
  (now : Q) (request : Request) (jwt : string) (claims exp : JsValue) :
  method request = "GET" ->
  cookie_jwt request = Some jwt ->
  getObj jwt = Normal claims ->
  js_get claims "exp" = Normal exp ->
  less_than exp (Fin now) = Normal true ->
  handler now request = Normal (Respond response401).
Proof.
  intros Hm Hc Ho Hg Hl.
  rewrite (handler_GET now request Hm).
  apply (authorize_expired now request jwt claims Hc Ho).
  exact (isExpired_bool now claims exp true Hg Hl).
Qed.

(** C5 (amended): the authorization filter is applied to every request
    whose method is GET; a request with any other method, HEAD included,
    is returned unchanged. *)
Theorem only_GET_is_filtered (now : Q) (request : Request) :
  (method request = "GET" -> handler now request = authorize now request) /\
  (method request <> "GET" -> handler now request = Normal (Forward request)).
Proof. split; [apply handler_GET | apply handler_other]. Qed.

(** A token of one segment never verifies: it has no signature segment
    to convert. *)
Lemma verify_one_segment (jwt : string) :
  mentions "." jwt = false -> verify jwt = Normal false.
Proof.
  intros Hfree. unfold verify, verify_try. rewrite (split_free _ _ Hfree). simpl.
  destruct (JSON_parse _) as [headerObj|]; [|reflexivity]. rewrite bind_Normal.
  destruct (js_get headerObj "kid"); reflexivity.
Qed.

(** C6: the function at two cookie entries, the first mentioning [jwt=]
    after another character, the second beginning with it. The entry
    that begins with the prefix carries [tok]; the function takes the
    first entry, cuts four characters off it, and rejects the request
    whatever [tok] is. At a single entry that holds another cookie
    before [jwt=], no entry begins with the prefix, and the function
    still extracts a text to verify: the entry without its first four
    characters. *)
Theorem first_mention_taken_not_first_prefix (now : Q) (tok : string) :
  let cookie :=
    [mkEntry (Some "Cookie") "xjwt=1"; mkEntry (Some "Cookie") (STR +:+ tok)] in
  let request :=
    {| clientIp := "203.0.113.178"; method := "GET"; uri := "/product-a/content/123";
       querystring := EmptyString; headers := {[ "cookie" := cookie ]} |} in
  let browser := [mkEntry (Some "Cookie") ("session=1; jwt=" +:+ tok)] in
  spec_find_jwt cookie = Some tok /\
  find_jwt cookie = Some "=1" /\
  handler now request = Normal (Respond response401) /\
  spec_find_jwt browser = None /\
  find_jwt browser = Some ("ion=1; jwt=" +:+ tok).
Proof.
  intros cookie request browser.
  split; [destruct tok; reflexivity | split; [reflexivity|]].
  split; [|split; destruct tok; reflexivity].
  rewrite (handler_GET now request eq_refl).
  apply (authorize_unverified now request "=1").
  - unfold cookie_jwt, request. simpl headers. rewrite lookup_singleton_eq. reflexivity.
  - apply verify_one_segment. reflexivity.
Qed.

(** C7: [verify] always returns a boolean: whatever is thrown inside it
    gives false, an unknown kid gives false, and the handler answers a
    false with the rejection response. *)
Theorem verify_never_throws (jwt : string) :
  (exists b : bool, verify jwt = Normal b) /\
  (forall e : JsError, verify_try jwt = Throw e -> verify jwt = Normal false) /\
  (forall (h : string) (headerObj kid : JsValue),
      split "." jwt !! 0%nat = Some h ->
      JSON_parse (utf8_of_base64url h) = Normal headerObj ->
      js_get headerObj "kid" = Normal kid ->
      (forall k : string, ToPropertyKey kid = Normal k -> KEYS !! k = None) ->
      verify jwt = Normal false) /\
  (forall (now : Q) (request : Request),
      method request = "GET" -> cookie_jwt request = Some jwt ->
      verify jwt = Normal false ->
      handler now request = Normal (Respond response401)).
Proof.
  split; [apply verify_total|]. split; [|split].
  - intros e He. unfold verify. rewrite He. reflexivity.
  - intros h headerObj kid Hh Hparse Hkid Habsent.
    unfold verify, verify_try. rewrite Hh. simpl.
    rewrite Hparse, bind_Normal, Hkid, bind_Normal.
    destruct (base64urlToBase64 _) as [sig|]; [|reflexivity]. rewrite bind_Normal.
    unfold getKey. destruct (ToPropertyKey kid) as [k|] eqn:Hk; simpl; [|reflexivity].
    unfold member. rewrite (Habsent k eq_refl).
    destruct (bool_decide _); reflexivity.
  - intros now request Hm Hc Hv.
    rewrite (handler_GET now request Hm).
    exact (authorize_unverified now request jwt Hc Hv).
Qed.

Lemma authorize_responds_401 (now : Q) (request : Request) (response : Response) :
  authorize now request = Normal (Respond response) -> response = response401.
Proof.
  unfold authorize.
  destruct (cookie_jwt request) as [jwt|]; [|congruence].
  destruct (String.eqb jwt EmptyString); [congruence|].
  destruct (verify jwt) as [[|]|]; simpl; [|congruence|discriminate].
  destruct (getObj jwt) as [obj|]; simpl; [|discriminate].
  destruct (isExpired now obj) as [[|]|]; simpl; [congruence| |discriminate].
  intros He. destruct (entitle_never_responds request obj response He).
Qed.

(** C8: a response the handler generates is always the one fixed 401
    response, and a missing token, a failed verification and an expired
    token each give it. *)
Theorem rejection_is_uniform (now : Q) (request : Request) :
  (forall response : Response,
      handler now request = Normal (Respond response) -> response = response401) /\
  (method request = "GET" ->
   cookie_jwt request = None \/ cookie_jwt request = Some EmptyString ->
   handler now request = Normal (Respond response401)) /\
  (forall jwt : string,
      method request = "GET" -> cookie_jwt request = Some jwt ->
      verify jwt = Normal false ->
      handler now request = Normal (Respond response401)) /\
  (forall (jwt : string) (obj : JsValue),
      method request = "GET" -> cookie_jwt request = Some jwt ->
      getObj jwt = Normal obj -> isExpired now obj = Normal true ->
      handler now request = Normal (Respond response401)).
Proof.
  split; [|split; [|split]].
  - intros response. unfold handler.
    destruct (negb (String.eqb (method request) "GET")); [discriminate|].
    apply authorize_responds_401.
  - intros Hm Hc. rewrite (handler_GET now request Hm). exact (authorize_missing now request Hc).
  - intros jwt Hm Hc Hv. rewrite (handler_GET now request Hm).
    exact (authorize_unverified now request jwt Hc Hv).
  - intros jwt obj Hm Hc Ho He. rewrite (handler_GET now request Hm).
    exact (authorize_expired now request jwt obj Hc Ho He).
Qed.

(** C9: for a GET request whose token verifies and whose claims have no
    exp, [isExpired] is false and the handler goes on to the entitlement
    decision, never to the rejection; claims that are not JSON are the
    empty array, which has no exp. *)
Theorem missing_exp_is_unexpired (now : Q) (request : Request) (jwt : string) :
  method request = "GET" ->
  cookie_jwt request = Some jwt ->
  verify jwt = Normal true ->
  (forall claims : JsValue,
      getObj jwt = Normal claims -> js_get claims "exp" = Normal JUndefined ->
      isExpired now claims = Normal false /\
      handler now request = entitle request claims /\
      forall response : Response, handler now request <> Normal (Respond response)) /\
  (forall (p : string) (e : JsError),
      split "." jwt !! 1%nat = Some p -> JSON_parse (utf8_of_base64url p) = Throw e ->
      getObj jwt = Normal (JArray []) /\
      js_get (JArray []) "exp" = Normal JUndefined /\
      handler now request = entitle request (JArray [])).
Proof.
  intros Hm Hc Hv.
  assert (Hgo : forall claims, getObj jwt = Normal claims ->
                  js_get claims "exp" = Normal JUndefined ->
                  handler now request = entitle request claims).
  { intros claims Ho Hg. rewrite (handler_GET now request Hm).
    exact (authorize_unexpired now request jwt claims Hc Hv Ho
             (isExpired_without_exp now claims Hg)). }
  split.
  - intros claims Ho Hg. split; [exact (isExpired_without_exp now claims Hg)|].
    split; [exact (Hgo claims Ho Hg)|].
    intros response. rewrite (Hgo claims Ho Hg). apply entitle_never_responds.
  - intros p e Hp He.
    assert (Ho := getObj_unparsable jwt p e Hp He).
    split; [exact Ho|]. split; [reflexivity|]. exact (Hgo _ Ho eq_refl).
Qed.

Lemma marked_same (subscriber : string) (r1 r2 : Request) :
  same_but_trust_headers r1 r2 -> marked subscriber r1 = marked subscriber r2.
Proof.
  intros (Hip & Hmethod & Huri & Hqs & Hh).
  unfold marked, set_header. simpl. rewrite Hip, Hmethod, Huri, Hqs. f_equal.
  apply map_eq. intros name.
  destruct (decide (name = "x-api-key")) as [->|Hk].
  { rewrite !lookup_insert_eq. reflexivity. }
  rewrite !(lookup_insert_ne _ "x-api-key") by congruence.
  destruct (decide (name = "x-is-subscriber")) as [->|Hs].
  { rewrite !lookup_insert_eq. reflexivity. }
  rewrite !(lookup_insert_ne _ "x-is-subscriber") by congruence.
  apply Hh; assumption.
Qed.

Lemma marked_headers (subscriber : string) (request : Request) :
  headers (marked subscriber request) !! "x-api-key" = Some [mkEntry None ApiKeyValue] /\
  headers (marked subscriber request) !! "x-is-subscriber" = Some [mkEntry None subscriber].
Proof.
  unfold marked, set_header. simpl. split.
  - apply lookup_insert_eq.
  - rewrite lookup_insert_ne by discriminate. apply lookup_insert_eq.
Qed.

(** C10: for a GET request with a non-empty first path segment whose
    token verifies and is unexpired, what the handler returns does not
    depend on the x-is-subscriber and x-api-key values of the inbound
    request: the forwarded x-api-key is the shared secret and the
    forwarded x-is-subscriber is the filter's true or false. *)
Theorem trust_headers_overwritten
  (now : Q) (r1 r2 : Request) (jwt : string) (obj : JsValue) (seg : string) :
  method r1 = "GET" ->
  same_but_trust_headers r1 r2 ->
  cookie_jwt r1 = Some jwt ->
  verify jwt = Normal true ->
  getObj jwt = Normal obj ->
  isExpired now obj = Normal false ->
  split "/" (uri r1) !! 1%nat = Some seg -> seg <> EmptyString ->
  handler now r1 = handler now r2 /\
  (forall out : Request,
      handler now r1 = Normal (Forward out) ->
      headers out !! "x-api-key" = Some [mkEntry None ApiKeyValue] /\
      (headers out !! "x-is-subscriber" = Some [mkEntry None "true"] \/
       headers out !! "x-is-subscriber" = Some [mkEntry None "false"])).
Proof.
  intros Hm Hsame Hc Hv Ho He Hseg Hne.
  assert (Hsame' := Hsame). destruct Hsame' as (_ & Hmethod & Huri & _ & Hh).
  assert (Hc2 : cookie_jwt r2 = Some jwt).
  { unfold cookie_jwt in *. rewrite <- (Hh "cookie") by discriminate. exact Hc. }
  assert (Hm2 : method r2 = "GET") by congruence.
  assert (Hseg2 : split "/" (uri r2) !! 1%nat = Some seg) by congruence.
  rewrite (handler_GET now r1 Hm), (handler_GET now r2 Hm2),
    (authorize_unexpired now r1 jwt obj Hc Hv Ho He),
    (authorize_unexpired now r2 jwt obj Hc2 Hv Ho He).
  destruct (subscriptions obj) as [subs|e] eqn:Hs.
  - rewrite (entitle_product r1 obj subs seg Hs Hseg Hne),
      (entitle_product r2 obj subs seg Hs Hseg2 Hne).
    split; [rewrite (marked_same _ r1 r2 Hsame); reflexivity|].
    intros out Hout. injection Hout as <-.
    destruct (marked_headers
                (if includes subs (member mapping (toLowerCase seg)) then "true" else "false")
                r1) as [Hkey Hsub].
    split; [exact Hkey|].
    destruct (includes subs _); [left | right]; exact Hsub.
  - unfold entitle. rewrite Hs. split; [reflexivity | discriminate].
Qed.

(** C1: the request of the claim, with another cookie entry before the
    one that carries the token, an entry that mentions [jwt=] elsewhere
    than at its start. The entry that begins with [jwt=] carries a
    three-segment token, signed by a key whose kid is in the key set,
    with exp in the future and a subscriptions claim holding the code
    mapped to the first path segment: the handler rejects the request.
    The same request with that other entry taken away is forwarded with
    x-is-subscriber true and x-api-key set to the shared secret, and
    nothing else changed. *)
Theorem valid_token_after_other_cookie_rejected
  (now : Q) (request : Request)
  (other entry : HeaderEntry) (after : list HeaderEntry)
  (h p s : string) (headerObj kid claims : JsValue) (k pem : string)
  (exp : Q) (subs code seg : string) :
  method request = "GET" ->
  headers request !! "cookie" = Some (other :: entry :: after) ->
  String.prefix STR (value other) = false ->
  (0 <= indexOf (value other) STR)%Z ->
  mentions "." (substring_from (String.length STR) (value other)) = false ->
  value entry = STR +:+ token h p s ->
  mentions "." h = false -> mentions "." p = false -> mentions "." s = false ->
  JSON_parse (utf8_of_base64url h) = Normal headerObj ->
  js_get headerObj "kid" = Normal kid ->
  ToPropertyKey kid = Normal k ->
  KEYS !! k = Some pem ->
  rsa_sha256_verify pem (h +:+ "." +:+ p) (base64_of_base64url s) = Normal true ->
  JSON_parse (utf8_of_base64url p) = Normal claims ->
  js_get claims "exp" = Normal (JNumber (Fin exp)) ->
  (now < exp)%Q ->
  js_get claims "custom:subs" = Normal (JString subs) ->
  code ∈ split "," subs ->
  split "/" (uri request) !! 1%nat = Some seg ->
  mapping !! toLowerCase seg = Some code ->
  spec_find_jwt (other :: entry :: after) = Some (token h p s) /\
  handler now request = Normal (Respond response401) /\
  exists out : Request,
    handler now (set_header "cookie" (entry :: after) request) = Normal (Forward out) /\
    headers out !! "x-is-subscriber" = Some [mkEntry None "true"] /\
    headers out !! "x-api-key" = Some [mkEntry None ApiKeyValue] /\
    same_but_trust_headers (set_header "cookie" (entry :: after) request) out.
Proof.
  intros Hm Hcookie Hprefix Hmention Hfree Hentry Hh Hp Hs Hhdr Hkid Hk Hpem Hsig Hclaims
    Hexp Hnow Hsubs Hcode Hseg Hmap.
  split; [|split].
  - simpl. rewrite Hprefix, Hentry, prefix_prefixed. reflexivity.
  - rewrite (handler_GET now request Hm).
    apply (authorize_unverified now request
             (substring_from (String.length STR) (value other))).
    + unfold cookie_jwt. rewrite Hcookie. simpl.
      destruct (Z.leb_spec 0 (indexOf (value other) STR)); [reflexivity | lia].
    + exact (verify_one_segment _ Hfree).
  - exists (marked "true" (set_header "cookie" (entry :: after) request)).
    split; [|apply marked_shows].
    apply (first_mention_token_forwarded now _ [] after entry h p s headerObj kid claims
             k pem exp subs code seg); try assumption.
    + unfold set_header. simpl. apply lookup_insert_eq.
    + constructor.
Qed.

End Claims.

(** ** The handler at the test tokens *)

Import TestVectors.

Lemma valid_token_after_other_cookie_rejected_witness :
  handler clock
    (get "/product-a/content/123"
       {[ "cookie" := [mkEntry (Some "Cookie") "xjwt=1";
                       mkEntry (Some "Cookie")
                         (STR +:+ token header_K1 claims_AB signature_K1)] ]})
  = Normal (Respond response401) /\
  exists out : Request,
    handler clock
      (set_header "cookie"
         [mkEntry (Some "Cookie") (STR +:+ token header_K1 claims_AB signature_K1)]
         (get "/product-a/content/123"
            {[ "cookie" := [mkEntry (Some "Cookie") "xjwt=1";
                            mkEntry (Some "Cookie")
                              (STR +:+ token header_K1 claims_AB signature_K1)] ]}))
    = Normal (Forward out) /\
    headers out !! "x-is-subscriber" = Some [mkEntry None "true"] /\
    headers out !! "x-api-key" = Some [mkEntry None "0123456789abcdef"].
Proof.
  destruct (valid_token_after_other_cookie_rejected
              (runtime := TestRuntime) (deployment := TestDeployment) clock
              (get "/product-a/content/123"
                 {[ "cookie" := [mkEntry (Some "Cookie") "xjwt=1";
                                 mkEntry (Some "Cookie")
                                   (STR +:+ token header_K1 claims_AB signature_K1)] ]})
              (mkEntry (Some "Cookie") "xjwt=1")
              (mkEntry (Some "Cookie") (STR +:+ token header_K1 claims_AB signature_K1)) []
              header_K1 claims_AB signature_K1 headerObj_K1 (JString "K1") claimsObj_AB
              "K1" pem_K1 2000000000 "A,B" "A" "product-a")
    as (_ & Hreject & out & Hforward & Hsub & Hkey & _);
    try (vm_compute; reflexivity).
  - vm_compute. discriminate.
  - vm_compute. apply list_elem_of_here.
  - split; [exact Hreject|]. exists out. split; [exact Hforward|].
    split; [exact Hsub | exact Hkey].
Defined.

(** The token of a browser that sends a second cookie before it in the
    same header line: the function cuts four characters off the line
    and rejects the request. *)
Lemma cookie_line_with_two_cookies_rejected :
  spec_find_jwt
    [mkEntry (Some "Cookie")
       ("session=1; jwt=" +:+ token header_K1 claims_AB signature_K1)] = None /\
  handler clock
    (get "/product-a/content/123"
       {[ "cookie" := [mkEntry (Some "Cookie")
                         ("session=1; jwt=" +:+ token header_K1 claims_AB signature_K1)] ]})
  = Normal (Respond response401).
Proof. split; vm_compute; reflexivity. Qed.





Lemma expired_token_rejected_witness :
  handler clock (with_token "/product-a/content/123" (token header_K1 claims_old signature_K1))
  = Normal (Respond response401).
Proof.
  apply (expired_token_rejected (runtime := TestRuntime) (deployment := TestDeployment)
           clock _ (token header_K1 claims_old signature_K1) claimsObj_old
           (JNumber (Fin 1000)));
    vm_compute; reflexivity.
Defined.

(** A HEAD request without a token: the handler returns it as it came,
    where the filter would have rejected it. *)
Lemma HEAD_request_not_filtered :
  method (without_token "HEAD" "/product-a/content/123") = "HEAD" /\
  handler clock (without_token "HEAD" "/product-a/content/123")
  = Normal (Forward (without_token "HEAD" "/product-a/content/123")) /\
  authorize clock (without_token "HEAD" "/product-a/content/123")
  = Normal (Respond response401).
Proof. repeat split; vm_compute; reflexivity. Qed.

Lemma only_GET_is_filtered_witness :
  handler clock (without_token "GET" "/product-a/content/123")
  = authorize clock (without_token "GET" "/product-a/content/123") /\
  handler clock (without_token "POST" "/product-a/content/123")
  = Normal (Forward (without_token "POST" "/product-a/content/123")).
Proof.
  split.
  - apply (only_GET_is_filtered (runtime := TestRuntime) (deployment := TestDeployment)). reflexivity.
  - apply (only_GET_is_filtered (runtime := TestRuntime) (deployment := TestDeployment)). discriminate.
Defined.

Lemma verify_never_throws_witness :
  verify (token header_K9 claims_AB signature_K1) = Normal false /\
  handler clock (with_token "/product-a/content/123" (token header_K9 claims_AB signature_K1))
  = Normal (Respond response401).
Proof.
  destruct (verify_never_throws (runtime := TestRuntime) (deployment := TestDeployment)
              (token header_K9 claims_AB signature_K1)) as (_ & _ & Hkid & Hreject).
  assert (Hv : verify (token header_K9 claims_AB signature_K1) = Normal false).
  { apply (Hkid header_K9 headerObj_K9 (JString "K9")); try (vm_compute; reflexivity).
    intros k Hk. injection Hk as <-. vm_compute. reflexivity. }
  split; [exact Hv|].
  apply Hreject; [reflexivity | vm_compute; reflexivity | exact Hv].
Defined.

Lemma rejection_is_uniform_witness :
  handler clock (without_token "GET" "/product-a/content/123")
  = Normal (Respond response401) /\
  handler clock (with_token "/product-a/content/123" (token header_K1 claims_old signature_K1))
  = Normal (Respond response401).
Proof.
  split.
  - apply (rejection_is_uniform (runtime := TestRuntime) (deployment := TestDeployment));
      [reflexivity | left; reflexivity].
  - destruct (rejection_is_uniform (runtime := TestRuntime) (deployment := TestDeployment) clock
                (with_token "/product-a/content/123"
                   (token header_K1 claims_old signature_K1)))
      as (_ & _ & _ & Hexpired).
    apply (Hexpired (token header_K1 claims_old signature_K1) claimsObj_old);
      vm_compute; reflexivity.
Defined.

Lemma missing_exp_is_unexpired_witness :
  isExpired clock claimsObj_noexp = Normal false /\
  handler clock (with_token "/product-a/content/123" (token header_K1 claims_noexp signature_K1))
  = entitle (with_token "/product-a/content/123" (token header_K1 claims_noexp signature_K1))
      claimsObj_noexp.
Proof.
  destruct (missing_exp_is_unexpired (runtime := TestRuntime) (deployment := TestDeployment) clock
              (with_token "/product-a/content/123"
                 (token header_K1 claims_noexp signature_K1))
              (token header_K1 claims_noexp signature_K1))
    as [Hclaims _]; try (vm_compute; reflexivity).
  destruct (Hclaims claimsObj_noexp) as (Hexp & Hgo & _); try (vm_compute; reflexivity).
  split; [exact Hexp | exact Hgo].
Defined.

Lemma trust_headers_overwritten_witness :
  handler clock (forged "/product-b/content/7" (token header_K1 claims_noexp signature_K1))
  = handler clock (with_token "/product-b/content/7" (token header_K1 claims_noexp signature_K1)).
Proof.
  apply (trust_headers_overwritten (runtime := TestRuntime) (deployment := TestDeployment) clock
           (forged "/product-b/content/7" (token header_K1 claims_noexp signature_K1))
           (with_token "/product-b/content/7" (token header_K1 claims_noexp signature_K1))
           (token header_K1 claims_noexp signature_K1) claimsObj_noexp "product-b");
    try (vm_compute; reflexivity); try discriminate.
  repeat split. intros name Hsub Hkey. unfold forged, with_token, get. simpl.
  rewrite !lookup_insert_ne by congruence. reflexivity.
Defined.

(** * Further properties of the code *)

(** ** The filter: what a forwarded request shows *)

Section Filter.
Context {runtime : NodeRuntime} {deployment : Deployment}.

Lemma verify_true_signed (jwt : string) :
  verify jwt = Normal true ->
  exists (h p s : string) (more : list string) (headerObj kid : JsValue) (k pem : string),
    split "." jwt = h :: p :: s :: more /\
    JSON_parse (utf8_of_base64url h) = Normal headerObj /\
    js_get headerObj "kid" = Normal kid /\
    ToPropertyKey kid = Normal k /\
    KEYS !! k = Some pem /\
    rsa_sha256_verify pem (h +:+ "." +:+ p) (base64_of_base64url s) = Normal true.
Proof.
  intros Hv. apply verify_true_try in Hv. unfold verify_try in Hv.
  destruct (verify_true_segments jwt (proj2 (verify_true_try jwt) Hv)) as (p & s & Hp & Hs).
  destruct (split "." jwt) as [|h [|p' [|s' more]]]; try discriminate.
  simpl in Hp, Hs. injection Hp as ->. injection Hs as ->. simpl in Hv.
  destruct (JSON_parse (utf8_of_base64url h)) as [headerObj|] eqn:Hparse; [|discriminate].
  rewrite bind_Normal in Hv.
  destruct (js_get headerObj "kid") as [kid|] eqn:Hkid; [|discriminate].
  rewrite bind_Normal in Hv. unfold getKey in Hv.
  destruct (ToPropertyKey kid) as [k|] eqn:Hk; simpl in Hv; [|discriminate].
  unfold member in Hv. destruct (KEYS !! k) as [pem|] eqn:Hpem.
  - exists h, p, s, more, headerObj, kid, k, pem. simpl in Hv. auto 10.
  - destruct (bool_decide (k ∈ ObjectPrototype_names)); discriminate.
Qed.

Lemma authorize_forward_inv (now : Q) (request out : Request) :
  authorize now request = Normal (Forward out) ->
  exists (jwt : string) (obj : JsValue),
    cookie_jwt request = Some jwt /\ verify jwt = Normal true /\
    getObj jwt = Normal obj /\ isExpired now obj = Normal false /\
    entitle request obj = Normal (Forward out).
Proof.
  unfold authorize. destruct (cookie_jwt request) as [jwt|]; [|discriminate].
  destruct (String.eqb jwt EmptyString); [discriminate|].
  destruct (verify jwt) as [[|]|] eqn:Hv; simpl; [|discriminate|discriminate].
  destruct (getObj jwt) as [obj|] eqn:Ho; simpl; [|discriminate].
  destruct (isExpired now obj) as [[|]|] eqn:He; simpl; [discriminate| |discriminate].
  intros Hout. exists jwt, obj. auto.
Qed.

Lemma entitle_forward_inv (request out : Request) (obj : JsValue) :
  entitle request obj = Normal (Forward out) ->
  exists subs : list string,
    subscriptions obj = Normal subs /\
    ((out = request /\
      (split "/" (uri request) !! 1%nat = None \/
       split "/" (uri request) !! 1%nat = Some EmptyString)) \/
     (exists seg : string,
        split "/" (uri request) !! 1%nat = Some seg /\ seg <> EmptyString /\
        out = marked
                (if includes subs (member mapping (toLowerCase seg)) then "true" else "false")
                request)).
Proof.
  unfold entitle. destruct (subscriptions obj) as [subs|] eqn:Hs; [|discriminate].
  rewrite bind_Normal. intros Hout. exists subs. split; [reflexivity|].
  destruct (split "/" (uri request) !! 1%nat) as [seg|] eqn:Hseg.
  - destruct (String.eqb_spec seg EmptyString) as [->|Hne].
    + injection Hout as <-. left. auto.
    + right. exists seg. split; [reflexivity|]. split; [exact Hne|].
      destruct (includes subs _); injection Hout as <-; reflexivity.
  - injection Hout as <-. left. auto.
Qed.

Lemma subscriptions_member (obj : JsValue) (subs : list string) (code : string) :
  subscriptions obj = Normal subs -> code ∈ subs ->
  exists s : string, js_get obj "custom:subs" = Normal (JString s) /\ subs = split "," s.
Proof.
  unfold subscriptions. destruct (js_get obj "custom:subs") as [v|]; [|discriminate].
  rewrite bind_Normal. destruct (truthy v).
  - destruct v; try discriminate. intros Hs _. injection Hs as <-. eauto.
  - intros Hs Hin. injection Hs as <-. apply elem_of_nil in Hin. destruct Hin.
Qed.

(** X1: a GET request is forwarded only if its cookie gave a token whose
    first three segments carry a signature that the RSA check accepts
    under a key of the key set, found by the kid of the header. *)
Theorem forwarded_GET_was_signed (now : Q) (request out : Request) :
  method request = "GET" ->
  handler now request = Normal (Forward out) ->
  exists (jwt h p s : string) (more : list string) (headerObj kid : JsValue) (k pem : string),
    cookie_jwt request = Some jwt /\
    split "." jwt = h :: p :: s :: more /\
    JSON_parse (utf8_of_base64url h) = Normal headerObj /\
    js_get headerObj "kid" = Normal kid /\
    ToPropertyKey kid = Normal k /\
    KEYS !! k = Some pem /\
    rsa_sha256_verify pem (h +:+ "." +:+ p) (base64_of_base64url s) = Normal true.
Proof.
  intros Hm Hout. rewrite (handler_GET now request Hm) in Hout.
  destruct (authorize_forward_inv now request out Hout) as (jwt & obj & Hc & Hv & _).
  destruct (verify_true_signed jwt Hv) as (h & p & s & more & headerObj & kid & k & pem & Hrest).
  exists jwt, h, p, s, more, headerObj, kid, k, pem. split; [exact Hc | exact Hrest].
Qed.

(** X2: when a GET request with a product segment is forwarded with
    x-is-subscriber true, its token verified and was unexpired, and the
    comma-separated custom:subs claim of the token holds the code that
    the mapping gives the product. *)
Theorem subscriber_mark_is_earned (now : Q) (request out : Request) (seg : string) :
  method request = "GET" ->
  handler now request = Normal (Forward out) ->
  split "/" (uri request) !! 1%nat = Some seg -> seg <> EmptyString ->
  headers out !! "x-is-subscriber" = Some [mkEntry None "true"] ->
  exists (jwt : string) (claims : JsValue) (subs code : string),
    cookie_jwt request = Some jwt /\ verify jwt = Normal true /\
    getObj jwt = Normal claims /\ isExpired now claims = Normal false /\
    js_get claims "custom:subs" = Normal (JString subs) /\
    mapping !! toLowerCase seg = Some code /\
    code ∈ split "," subs.
Proof.
  intros Hm Hout Hseg Hne Hmark. rewrite (handler_GET now request Hm) in Hout.
  destruct (authorize_forward_inv now request out Hout) as (jwt & obj & Hc & Hv & Ho & He & Hent).
  destruct (entitle_forward_inv request out obj Hent) as (subs & Hs & [[_ Hnone] | Hsome]).
  { destruct Hnone as [Hn | Hn]; rewrite Hseg in Hn; [discriminate|].
    injection Hn as ->. contradiction. }
  destruct Hsome as (seg' & Hseg' & _ & ->).
  rewrite Hseg in Hseg'. injection Hseg' as <-.
  destruct (includes subs (member mapping (toLowerCase seg))) eqn:Hinc.
  - unfold includes, member in Hinc.
    destruct (mapping !! toLowerCase seg) as [code|] eqn:Hmap.
    + apply bool_decide_eq_true_1 in Hinc.
      destruct (subscriptions_member obj subs code Hs Hinc) as (s & Hg & ->).
      exists jwt, obj, s, code. auto 10.
    + destruct (bool_decide (toLowerCase seg ∈ ObjectPrototype_names)); discriminate.
  - destruct (marked_headers "false" request) as [_ Hfalse].
    rewrite Hfalse in Hmark. discriminate.
Qed.

(** X3: the handler throws only on a GET request whose token passed
    [verify]: the exception then comes from reading the claims, in
    [isExpired] or in the subscriptions expression. *)
Theorem fault_needs_verified_token (now : Q) (request : Request) (e : JsError) :
  handler now request = Throw e ->
  method request = "GET" /\
  exists (jwt : string) (claims : JsValue),
    cookie_jwt request = Some jwt /\ verify jwt = Normal true /\
    getObj jwt = Normal claims /\
    (isExpired now claims = Throw e \/
     (isExpired now claims = Normal false /\ subscriptions claims = Throw e)).
Proof.
  unfold handler. destruct (String.eqb_spec (method request) "GET") as [Hm|_]; [|discriminate].
  simpl. intros Hthrow. split; [exact Hm|]. unfold authorize in Hthrow.
  destruct (cookie_jwt request) as [jwt|]; [|discriminate].
  destruct (String.eqb jwt EmptyString); [discriminate|].
  destruct (verify_total jwt) as [[|] Hv]; rewrite Hv in Hthrow; simpl in Hthrow;
    [|discriminate].
  destruct (getObj_after_verify jwt Hv) as [claims Ho]. rewrite Ho in Hthrow.
  rewrite bind_Normal in Hthrow. exists jwt, claims.
  split; [reflexivity|]. split; [exact Hv|]. split; [exact Ho|].
  destruct (isExpired now claims) as [[|]|e'] eqn:He; simpl in Hthrow.
  - discriminate.
  - right. split; [reflexivity|]. unfold entitle in Hthrow.
    destruct (subscriptions claims) as [subs|e'']; [|simpl in Hthrow; congruence].
    rewrite bind_Normal in Hthrow.
    destruct (split "/" (uri request) !! 1%nat) as [seg|]; [|discriminate].
    destruct (String.eqb seg EmptyString); discriminate.
  - left. congruence.
Qed.

(** X4: for a GET request whose token verifies, claims that are the JSON
    null make the handler throw a TypeError instead of answering; so
    does, on an unexpired token, a custom:subs claim that is truthy and
    not a string. *)
Theorem unreadable_claims_fault (now : Q) (request : Request) (jwt : string) :
  method request = "GET" ->
  cookie_jwt request = Some jwt ->
  verify jwt = Normal true ->
  (getObj jwt = Normal JNull -> handler now request = Throw TypeError) /\
  (forall claims subs : JsValue,
      getObj jwt = Normal claims -> isExpired now claims = Normal false ->
      js_get claims "custom:subs" = Normal subs -> truthy subs = true ->
      (forall s : string, subs <> JString s) ->
      handler now request = Throw TypeError).
Proof.
  intros Hm Hc Hv. rewrite (handler_GET now request Hm). split.
  - intros Ho. rewrite (authorize_verified now request jwt JNull Hc Hv Ho). reflexivity.
  - intros claims subs Ho He Hg Ht Hns.
    rewrite (authorize_unexpired now request jwt claims Hc Hv Ho He).
    unfold entitle, subscriptions. rewrite Hg, bind_Normal, Ht.
    destruct subs; try reflexivity. destruct (Hns s eq_refl).
Qed.

Lemma same_but_trust_headers_refl (request : Request) :
  same_but_trust_headers request request.
Proof. repeat split. Qed.

Lemma same_but_trust_headers_marked (subscriber : string) (request : Request) :
  same_but_trust_headers request (marked subscriber request) /\
  same_but_trust_headers (marked subscriber request) request.
Proof.
  assert (Hh : forall name : string,
             name <> "x-is-subscriber" -> name <> "x-api-key" ->
             headers (marked subscriber request) !! name = headers request !! name).
  { intros name Hs Hk. unfold marked, set_header. simpl.
    rewrite !lookup_insert_ne by congruence. reflexivity. }
  split; repeat split; intros name Hs Hk; [symmetry|]; exact (Hh name Hs Hk).
Qed.

(** X5: a request that the handler forwards is the inbound request in
    its method, path, query string, client address and every header but
    x-is-subscriber and x-api-key: the cookie and all else go on as they
    came. *)
Theorem forward_changes_trust_headers_only (now : Q) (request out : Request) :
  handler now request = Normal (Forward out) ->
  same_but_trust_headers request out.
Proof.
  unfold handler. destruct (negb (String.eqb (method request) "GET")).
  { intros Hout. injection Hout as <-. apply same_but_trust_headers_refl. }
  intros Hout.
  destruct (authorize_forward_inv now request out Hout) as (jwt & obj & _ & _ & _ & _ & Hent).
  destruct (entitle_forward_inv request out obj Hent)
    as (subs & _ & [[-> _] | (seg & _ & _ & ->)]).
  - apply same_but_trust_headers_refl.
  - apply same_but_trust_headers_marked.
Qed.

Lemma cookie_jwt_same (r1 r2 : Request) :
  same_but_trust_headers r1 r2 -> cookie_jwt r1 = cookie_jwt r2.
Proof.
  intros (_ & _ & _ & _ & Hh). unfold cookie_jwt.
  rewrite (Hh "cookie") by discriminate. reflexivity.
Qed.

(** X6: the handler changes nothing in a request it has forwarded: run
    at the same clock reading on its own output, it forwards that output
    as it is. *)
Theorem handler_idempotent_on_forwarded (now : Q) (request out : Request) :
  handler now request = Normal (Forward out) ->
  handler now out = Normal (Forward out).
Proof.
  intros Hout. unfold handler in Hout.
  destruct (String.eqb_spec (method request) "GET") as [Hm|Hm]; simpl in Hout.
  - destruct (authorize_forward_inv now request out Hout)
      as (jwt & obj & Hc & Hv & Ho & He & Hent).
    destruct (entitle_forward_inv request out obj Hent)
      as (subs & Hs & [[-> _] | (seg & Hseg & Hne & ->)]).
    + rewrite (handler_GET now request Hm). exact Hout.
    + set (mark := if includes subs (member mapping (toLowerCase seg))
                   then "true" else "false") in *.
      destruct (same_but_trust_headers_marked mark request) as [Hsame _].
      rewrite (handler_GET now (marked mark request) Hm).
      rewrite (authorize_unexpired now (marked mark request) jwt obj
                 (eq_trans (eq_sym (cookie_jwt_same _ _ Hsame)) Hc) Hv Ho He).
      rewrite (entitle_product (marked mark request) obj subs seg Hs Hseg Hne).
      fold mark.
      rewrite (marked_same mark (marked mark request) request
                 (proj2 (same_but_trust_headers_marked mark request))).
      reflexivity.
  - injection Hout as <-. apply (handler_other now request Hm).
Qed.

Lemma split_token_more (h p s more : string) :
  mentions "." h = false -> mentions "." p = false -> mentions "." s = false ->
  split "." (h +:+ "." +:+ p +:+ "." +:+ s +:+ "." +:+ more) = h :: p :: s :: split "." more.
Proof.
  intros Hh Hp Hs.
  change ("." +:+ p +:+ "." +:+ s +:+ "." +:+ more)
    with (String "." (p +:+ String "." (s +:+ String "." more))).
  rewrite (split_append _ _ _ Hh), (split_append _ _ _ Hp), (split_append _ _ _ Hs).
  reflexivity.
Qed.

(** X7: [verify] and [getObj] read the first three segments of a token
    only: text appended to a three-segment token after a further dot
    changes neither the verdict nor the claims. *)
Theorem segments_after_third_ignored (h p s more : string) :
  mentions "." h = false -> mentions "." p = false -> mentions "." s = false ->
  verify (h +:+ "." +:+ p +:+ "." +:+ s +:+ "." +:+ more) = verify (token h p s) /\
  getObj (h +:+ "." +:+ p +:+ "." +:+ s +:+ "." +:+ more) = getObj (token h p s).
Proof.
  intros Hh Hp Hs. unfold verify, verify_try, getObj.
  rewrite (split_token_more h p s more Hh Hp Hs), (split_token h p s Hh Hp Hs).
  split; reflexivity.
Qed.

(** X8: the cookie loop gives a token exactly when some entry mentions
    [jwt=]: the token is the first such entry without its first four
    characters, whatever the entries after it hold; and it gives none
    exactly when no entry mentions [jwt=]. *)
Theorem find_jwt_first_mention (cookie : list HeaderEntry) (t : string) :
  (find_jwt cookie = Some t <->
   exists (before after : list HeaderEntry) (entry : HeaderEntry),
     cookie = (before ++ entry :: after)%list /\
     Forall (fun e => (indexOf (value e) STR < 0)%Z) before /\
     (0 <= indexOf (value entry) STR)%Z /\
     t = substring_from (String.length STR) (value entry)) /\
  (find_jwt cookie = None <-> Forall (fun e => (indexOf (value e) STR < 0)%Z) cookie).
Proof.
  split.
  - split.
    + induction cookie as [|e rest IH]; simpl; [discriminate|].
      destruct (Z.leb_spec 0 (indexOf (value e) STR)) as [Hge|Hlt].
      * intros Ht. injection Ht as <-. exists [], rest, e. auto.
      * intros Ht. destruct (IH Ht) as (before & after & entry & -> & Hb & Hge & ->).
        exists (e :: before), after, entry. auto.
    + intros (before & after & entry & -> & Hb & Hge & ->).
      induction Hb as [|e before He _ IH]; simpl.
      * destruct (Z.leb_spec 0 (indexOf (value entry) STR)); [reflexivity | lia].
      * destruct (Z.leb_spec 0 (indexOf (value e) STR)); [lia | exact IH].
  - split.
    + induction cookie as [|e rest IH]; simpl; [constructor|].
      destruct (Z.leb_spec 0 (indexOf (value e) STR)); [discriminate|].
      intros Hn. constructor; [assumption | exact (IH Hn)].
    + induction 1 as [|e rest He _ IH]; simpl; [reflexivity|].
      destruct (Z.leb_spec 0 (indexOf (value e) STR)); [lia | exact IH].
Qed.

Lemma number_lt_later (n : JsNumber) (now later : Q) :
  (now <= later)%Q -> number_lt n (Fin now) = true -> number_lt n (Fin later) = true.
Proof.
  intros Hle. destruct n as [| |x|]; simpl; try (intros; assumption).
  intros Hlt. apply negb_true_iff in Hlt. apply negb_true_iff.
  destruct (Qle_bool later x) eqn:Hlater; [|reflexivity].
  apply Qle_bool_iff in Hlater.
  assert (Hnow : Qle_bool now x = true).
  { apply Qle_bool_iff. exact (Qle_trans _ _ _ Hle Hlater). }
  congruence.
Qed.

(** X9: expiry is for good: a token that [isExpired] finds expired at
    one clock reading is expired at every later one, and a GET request
    carrying it is then answered with the rejection. *)
Theorem expired_stays_expired
  (now later : Q) (request : Request) (jwt : string) (claims : JsValue) :
  method request = "GET" ->
  cookie_jwt request = Some jwt ->
  getObj jwt = Normal claims ->
  isExpired now claims = Normal true ->
  (now <= later)%Q ->
  isExpired later claims = Normal true /\
  handler later request = Normal (Respond response401).
Proof.
  intros Hm Hc Ho He Hle.
  assert (He' : isExpired later claims = Normal true).
  { unfold isExpired in *. destruct (js_get claims "exp") as [exp|]; [|discriminate].
    rewrite bind_Normal in *. unfold less_than in *.
    destruct (ToNumber exp) as [n|]; [|discriminate].
    rewrite bind_Normal in *. simpl in *.
    destruct (number_lt n (Fin now)) eqn:Hlt; [|discriminate].
    rewrite (number_lt_later n now later Hle Hlt). reflexivity. }
  split; [exact He'|].
  rewrite (handler_GET later request Hm).
  exact (authorize_expired later request jwt claims Hc Ho He').
Qed.

End Filter.

(** ** The mock origin *)

Lemma split_path3 (p x id : string) :
  mentions "/" p = false -> mentions "/" x = false -> mentions "/" id = false ->
  split "/" ("/" +:+ p +:+ "/" +:+ x +:+ "/" +:+ id) = [EmptyString; p; x; id].
Proof.
  intros Hp Hx Hid.
  change ("/" +:+ p +:+ "/" +:+ x +:+ "/" +:+ id)
    with (EmptyString +:+ String "/" (p +:+ String "/" (x +:+ String "/" id))).
  rewrite (split_append "/" EmptyString _ eq_refl), (split_append _ _ _ Hp),
    (split_append _ _ _ Hx), (split_free _ _ Hid).
  reflexivity.
Qed.

Lemma split_path2 (p x : string) :
  mentions "/" p = false -> mentions "/" x = false ->
  split "/" ("/" +:+ p +:+ "/" +:+ x) = [EmptyString; p; x].
Proof.
  intros Hp Hx.
  change ("/" +:+ p +:+ "/" +:+ x) with (EmptyString +:+ String "/" (p +:+ String "/" x)).
  rewrite (split_append "/" EmptyString _ eq_refl), (split_append _ _ _ Hp),
    (split_free _ _ Hx).
  reflexivity.
Qed.

(** X10: the origin answers a path of three segments, the first and the
    third not empty, with status 200 whatever the second segment is, and
    with the full content exactly when the header X-Is-Subscriber is the
    text true; a path of two segments is answered 400 before the headers
    are looked at. *)
Theorem origin_checks_first_and_third_segment (p x id : string) :
  mentions "/" p = false -> mentions "/" x = false -> mentions "/" id = false ->
  p <> EmptyString -> id <> EmptyString ->
  (forall hs : gmap string string,
      MockOrigin.handler
        {| MockOrigin.path := "/" +:+ p +:+ "/" +:+ x +:+ "/" +:+ id;
           MockOrigin.headers := Some hs |}
      = Normal {| MockOrigin.statusCode := 200;
                  MockOrigin.body :=
                    if bool_decide (hs !! "X-Is-Subscriber" = Some "true")
                    then "Full content" else "Preview only" |}) /\
  (forall hs : option (gmap string string),
      MockOrigin.handler
        {| MockOrigin.path := "/" +:+ p +:+ "/" +:+ x; MockOrigin.headers := hs |}
      = Normal {| MockOrigin.statusCode := 400;
                  MockOrigin.body := MockOrigin.JSON_stringify_text "Invalid URL" |}).
Proof.
  intros Hp Hx Hid Hpne Hidne. split.
  - intros hs. unfold MockOrigin.handler. simpl MockOrigin.path.
    rewrite (split_path3 p x id Hp Hx Hid). simpl.
    destruct (String.eqb_spec p EmptyString); [contradiction|].
    destruct (String.eqb_spec id EmptyString); [contradiction|]. simpl.
    destruct (bool_decide (hs !! "X-Is-Subscriber" = Some "true")); reflexivity.
  - intros hs. unfold MockOrigin.handler. simpl MockOrigin.path.
    rewrite (split_path2 p x Hp Hx). simpl.
    destruct (String.eqb p EmptyString); reflexivity.
Qed.

(** X11: the filter and the origin read the product off the same path
    segment: when the origin answers the path of a forwarded GET request
    with status 200, the filter has written the x-is-subscriber and
    x-api-key headers of that request itself. *)
Theorem served_path_was_marked
  {runtime : NodeRuntime} {deployment : Deployment}
  (now : Q) (request out : Request) (event : MockOrigin.Event) (result : MockOrigin.Result) :
  method request = "GET" ->
  handler now request = Normal (Forward out) ->
  MockOrigin.path event = uri request ->
  MockOrigin.handler event = Normal result ->
  MockOrigin.statusCode result = 200%Z ->
  headers out !! "x-api-key" = Some [mkEntry None ApiKeyValue] /\
  (headers out !! "x-is-subscriber" = Some [mkEntry None "true"] \/
   headers out !! "x-is-subscriber" = Some [mkEntry None "false"]).
Proof.
  intros Hm Hout Hpath Horigin Hstatus.
  assert (Hproduct : exists seg, split "/" (uri request) !! 1%nat = Some seg /\
                                 seg <> EmptyString).
  { unfold MockOrigin.handler in Horigin. rewrite Hpath in Horigin.
    destruct (split "/" (uri request) !! 1%nat) as [product|] eqn:Hproduct;
      simpl in Horigin.
    - destruct (String.eqb_spec product EmptyString) as [Hempty|Hne]; simpl in Horigin.
      + injection Horigin as <-. discriminate.
      + exists product. auto.
    - injection Horigin as <-. discriminate. }
  destruct Hproduct as (seg & Hseg & Hne).
  rewrite (handler_GET now request Hm) in Hout.
  destruct (authorize_forward_inv now request out Hout) as (jwt & obj & _ & _ & _ & _ & Hent).
  destruct (entitle_forward_inv request out obj Hent)
    as (subs & _ & [[_ Hnone] | (seg' & _ & _ & ->)]).
  - destruct Hnone as [Hn | Hn]; rewrite Hseg in Hn; [discriminate|].
    injection Hn as ->. contradiction.
  - destruct (marked_headers
                (if includes subs (member mapping (toLowerCase seg')) then "true" else "false")
                request) as [Hkey Hsub].
    split; [exact Hkey|].
    destruct (includes subs _); [left | right]; exact Hsub.
Qed.

(** ** The deployment script *)

Section KeySet.
Context {runtime : NodeRuntime}.
Variable jwkToPem : JsValue -> Completion string.

Lemma createPemKeys_from_app (allKeys : gmap string string) (l1 l2 : list JsValue) :
  createPemKeys_from jwkToPem allKeys (l1 ++ l2)%list =
    (keys ← createPemKeys_from jwkToPem allKeys l1; createPemKeys_from jwkToPem keys l2).
Proof.
  revert allKeys. induction l1 as [|k rest IH]; intros allKeys; simpl; [reflexivity|].
  destruct (js_get k "kid") as [kid|]; [|reflexivity]. rewrite !bind_Normal.
  destruct (jwkToPem k) as [pem|]; [|reflexivity]. rewrite !bind_Normal.
  destruct (ToPropertyKey kid) as [name|]; [|reflexivity]. rewrite !bind_Normal.
  apply IH.
Qed.

Lemma assign_lookup (allKeys : gmap string string) (name name' pem : string) :
  assign allKeys name pem !! name' =
    if bool_decide (name = name' /\ name <> "__proto__") then Some pem else allKeys !! name'.
Proof.
  unfold assign. destruct (String.eqb_spec name "__proto__") as [->|Hne].
  - rewrite bool_decide_eq_false_2; [reflexivity | intros [_ Hn]; contradiction].
  - destruct (decide (name = name')) as [->|Hnn].
    + rewrite lookup_insert_eq, bool_decide_eq_true_2; auto.
    + rewrite lookup_insert_ne by exact Hnn.
      rewrite bool_decide_eq_false_2; [reflexivity | intros [? _]; contradiction].
Qed.

Lemma createPemKeys_from_sound (keysArray : list JsValue) :
  forall (allKeys pemKeys : gmap string string) (name pem : string),
    createPemKeys_from jwkToPem allKeys keysArray = Normal pemKeys ->
    pemKeys !! name = Some pem ->
    allKeys !! name = Some pem \/
    exists k kid : JsValue,
      k ∈ keysArray /\ js_get k "kid" = Normal kid /\
      ToPropertyKey kid = Normal name /\ jwkToPem k = Normal pem.
Proof.
  induction keysArray as [|k rest IH]; intros allKeys pemKeys name pem; simpl.
  - intros Hm Hl. injection Hm as <-. left. exact Hl.
  - destruct (js_get k "kid") as [kid|] eqn:Hkid; [|discriminate]. rewrite bind_Normal.
    destruct (jwkToPem k) as [pem'|] eqn:Hpem; [|discriminate]. rewrite bind_Normal.
    destruct (ToPropertyKey kid) as [name'|] eqn:Hname; [|discriminate]. rewrite bind_Normal.
    intros Hm Hl. destruct (IH _ _ _ _ Hm Hl) as [Hacc | (k' & kid' & Hin & Hrest)].
    + rewrite assign_lookup in Hacc. case_bool_decide as Hcase.
      * destruct Hcase as [-> _]. injection Hacc as ->.
        right. exists k, kid. split; [apply list_elem_of_here | auto].
      * left. exact Hacc.
    + right. exists k', kid'. split; [apply list_elem_of_further, Hin | exact Hrest].
Qed.

(** X12: the key set that [createPemKeys] builds holds nothing but the
    conversions of the keys it was given, each under the kid of its
    key. *)
Theorem createPemKeys_only_given_keys
  (keysArray : list JsValue) (pemKeys : gmap string string) (name pem : string) :
  createPemKeys jwkToPem keysArray = Normal pemKeys ->
  pemKeys !! name = Some pem ->
  exists k kid : JsValue,
    k ∈ keysArray /\ js_get k "kid" = Normal kid /\
    ToPropertyKey kid = Normal name /\ jwkToPem k = Normal pem.
Proof.
  intros Hm Hl.
  destruct (createPemKeys_from_sound keysArray ∅ pemKeys name pem Hm Hl) as [Hempty | Hk].
  - rewrite lookup_empty in Hempty. discriminate.
  - exact Hk.
Qed.

(** X13: [createPemKeys] gives a key set only if every key of the array
    has a readable kid and converts: one key that [jwkToPem] refuses
    leaves the deployment without any. *)
Theorem createPemKeys_all_or_nothing
  (keysArray : list JsValue) (pemKeys : gmap string string) (k : JsValue) :
  createPemKeys jwkToPem keysArray = Normal pemKeys ->
  k ∈ keysArray ->
  exists (kid : JsValue) (name pem : string),
    js_get k "kid" = Normal kid /\ ToPropertyKey kid = Normal name /\
    jwkToPem k = Normal pem.
Proof.
  unfold createPemKeys. generalize (∅ : gmap string string) as allKeys.
  induction keysArray as [|k' rest IH]; intros allKeys Hm Hin.
  - apply elem_of_nil in Hin. destruct Hin.
  - simpl in Hm.
    destruct (js_get k' "kid") as [kid|] eqn:Hkid; [|discriminate]. rewrite bind_Normal in Hm.
    destruct (jwkToPem k') as [pem|] eqn:Hpem; [|discriminate]. rewrite bind_Normal in Hm.
    destruct (ToPropertyKey kid) as [name|] eqn:Hname; [|discriminate].
    rewrite bind_Normal in Hm.
    apply elem_of_cons in Hin as [-> | Hin].
    + exists kid, name, pem. auto.
    + exact (IH _ Hm Hin).
Qed.

Lemma createPemKeys_from_keeps (after : list JsValue) (name pem : string) :
  Forall (fun k' => forall kid', js_get k' "kid" = Normal kid' ->
                                 ToPropertyKey kid' <> Normal name) after ->
  forall allKeys pemKeys : gmap string string,
    createPemKeys_from jwkToPem allKeys after = Normal pemKeys ->
    allKeys !! name = Some pem -> pemKeys !! name = Some pem.
Proof.
  induction 1 as [|k rest Hk _ IH]; intros allKeys pemKeys; simpl.
  - intros Hm. injection Hm as <-. auto.
  - destruct (js_get k "kid") as [kid|] eqn:Hkid; [|discriminate]. rewrite bind_Normal.
    destruct (jwkToPem k) as [pem'|]; [|discriminate]. rewrite bind_Normal.
    destruct (ToPropertyKey kid) as [name'|] eqn:Hname; [|discriminate]. rewrite bind_Normal.
    intros Hm Hacc. apply (IH _ _ Hm). rewrite assign_lookup.
    rewrite bool_decide_eq_false_2; [exact Hacc|].
    intros [-> _]. exact (Hk kid eq_refl Hname).
Qed.

(** X14: a key of the array, under a kid other than [__proto__] that no
    later key of the array repeats, is the key that the deployed filter
    finds for that kid. *)
Theorem published_key_reaches_filter
  (before after : list JsValue) (k kid : JsValue) (name pem apiKeyValue : string)
  (pemKeys : gmap string string) :
  createPemKeys jwkToPem (before ++ k :: after)%list = Normal pemKeys ->
  js_get k "kid" = Normal kid ->
  ToPropertyKey kid = Normal name ->
  name <> "__proto__" ->
  Forall (fun k' => forall kid', js_get k' "kid" = Normal kid' ->
                                 ToPropertyKey kid' <> Normal name) after ->
  exists pem : string,
    jwkToPem k = Normal pem /\
    pemKeys !! name = Some pem /\
    getKey (deployment := deployed pemKeys apiKeyValue) kid = Normal (SString pem).
Proof.
  intros Hm Hkid Hname Hne Hafter. unfold createPemKeys in Hm.
  rewrite createPemKeys_from_app in Hm.
  destruct (createPemKeys_from jwkToPem ∅ before) as [keys|]; [|discriminate].
  rewrite bind_Normal in Hm. simpl in Hm. rewrite Hkid, bind_Normal in Hm.
  destruct (jwkToPem k) as [pem'|]; [|discriminate].
  rewrite bind_Normal, Hname, bind_Normal in Hm.
  assert (Hl : pemKeys !! name = Some pem').
  { apply (createPemKeys_from_keeps after name pem' Hafter _ _ Hm).
    rewrite assign_lookup, bool_decide_eq_true_2; auto. }
  exists pem'. split; [reflexivity|]. split; [exact Hl|].
  unfold getKey. rewrite Hname, bind_Normal. unfold member. simpl KEYS.
  rewrite Hl. reflexivity.
Qed.

End KeySet.

(** ** The cleanup script *)



Lemma set_property_again (props : list (string * JsValue)) (k : string) (v : JsValue) :
  Cleanup.set_property (Cleanup.set_property props k v) k v = Cleanup.set_property props k v.
Proof.
  induction props as [|[k' v'] rest IH]; simpl.
  - rewrite String.eqb_refl. reflexivity.
  - destruct (String.eqb k' k) eqn:Hk; simpl.
    + rewrite String.eqb_refl. reflexivity.
    + rewrite Hk, IH. reflexivity.
Qed.



(** X16: [updateConfigJson] moves the ETag of the answer to IfMatch and
    sets Id. Run again on its own result it finds no ETag: it erases
    IfMatch, and changes nothing else but Id. *)
Theorem updateConfigJson_again (id1 id2 : option string) (c : Cleanup.config) :
  Cleanup.ETag (Cleanup.updateConfigJson id1 c) = None /\
  Cleanup.Id (Cleanup.updateConfigJson id1 c) = id1 /\
  Cleanup.IfMatch (Cleanup.updateConfigJson id1 c) = Cleanup.ETag c /\
  Cleanup.updateConfigJson id2 (Cleanup.updateConfigJson id1 c) =
    {| Cleanup.ETag := None; Cleanup.Id := id2; Cleanup.IfMatch := None;
       Cleanup.DistributionConfig :=
         Cleanup.DistributionConfig (Cleanup.updateConfigJson id1 c) |}.
Proof.
  assert (Hfields : Cleanup.ETag (Cleanup.updateConfigJson id1 c) = None /\
                    Cleanup.Id (Cleanup.updateConfigJson id1 c) = id1 /\
                    Cleanup.IfMatch (Cleanup.updateConfigJson id1 c) = Cleanup.ETag c).
  { unfold Cleanup.updateConfigJson. destruct (Cleanup.items_of _); auto. }
  destruct Hfields as (Hetag & Hid & Hifmatch). repeat split; try assumption.
  destruct c as [etag id0 ifmatch [[[[quantity [items|]]|] default others]|]];
    try reflexivity.
  unfold Cleanup.updateConfigJson, Cleanup.items_of. simpl.
  rewrite map_map.
  rewrite (map_ext _ Cleanup.disassociate)
    by (intros item; apply set_property_again).
  reflexivity.
Qed.

Lemma fold_outputs (outputs : list Cleanup.output) (id : option string) :
  fold_left
    (fun id o =>
       if String.eqb (Cleanup.OutputKey o) "CFDistributionId"
       then Some (Cleanup.OutputValue o) else id)
    outputs id
  = match last (map Cleanup.OutputValue
                  (filter (fun o => Cleanup.OutputKey o = "CFDistributionId") outputs)) with
    | Some v => Some v
    | None => id
    end.
Proof.
  revert id. induction outputs as [|o rest IH]; intros id; simpl; [reflexivity|].
  rewrite IH. rewrite filter_cons.
  destruct (String.eqb_spec (Cleanup.OutputKey o) "CFDistributionId") as [Hk|Hk].
  - rewrite decide_True by exact Hk. simpl. rewrite last_cons.
    destruct (last _); reflexivity.
  - rewrite decide_False by exact Hk. reflexivity.
Qed.

Lemma fold_stacks (stack2 : string) (Stacks : list Cleanup.stack) (id : option string) :
  fold_left
    (fun id s =>
       if String.eqb (Cleanup.StackName s) stack2 then
         fold_left
           (fun id o =>
              if String.eqb (Cleanup.OutputKey o) "CFDistributionId"
              then Some (Cleanup.OutputValue o) else id)
           (Cleanup.Outputs s) id
       else id)
    Stacks id
  = match last (Cleanup.distribution_ids stack2 Stacks) with
    | Some v => Some v
    | None => id
    end.
Proof.
  revert id. induction Stacks as [|s rest IH]; intros id; simpl; [reflexivity|].
  rewrite IH. unfold Cleanup.distribution_ids. simpl.
  rewrite last_app. fold (Cleanup.distribution_ids stack2 rest).
  destruct (last (Cleanup.distribution_ids stack2 rest)); [reflexivity|].
  destruct (String.eqb (Cleanup.StackName s) stack2); [apply fold_outputs | reflexivity].
Qed.

(** X17: [getDistributionId] gives the value of the last
    CFDistributionId output among the stacks named [stack2], and [null]
    exactly when there is no such output. *)
Theorem getDistributionId_last_output (stack2 : string) (Stacks : list Cleanup.stack) :
  Cleanup.getDistributionId stack2 Stacks = last (Cleanup.distribution_ids stack2 Stacks) /\
  (Cleanup.getDistributionId stack2 Stacks = None <->
   Cleanup.distribution_ids stack2 Stacks = []).
Proof.
  assert (Hlast : Cleanup.getDistributionId stack2 Stacks
                  = last (Cleanup.distribution_ids stack2 Stacks)).
  { unfold Cleanup.getDistributionId. rewrite fold_stacks.
    destruct (last _); reflexivity. }
  split; [exact Hlast|]. rewrite Hlast. apply last_None.
Qed.

(** X18: called as the script calls it, with the counter at one,
    [distributionIsDeployed] ends within three calls of
    [getDistribution], so within forty-five minutes of waiting: it gives
    up with false exactly when three calls in a row read a status other
    than Deployed, and gives true only when a call read Deployed. *)
Theorem polling_ends_within_three_calls
  (a1 a2 a3 : Completion string) (rest : list (Completion string)) :
  exists (result : Completion bool) (calls : nat),
    Cleanup.distributionIsDeployed (a1 :: a2 :: a3 :: rest) 1 = Some (result, calls) /\
    (1 <= calls <= 3)%nat /\
    (result = Normal false <->
     exists s1 s2 s3 : string,
       a1 = Normal s1 /\ a2 = Normal s2 /\ a3 = Normal s3 /\
       s1 <> "Deployed" /\ s2 <> "Deployed" /\ s3 <> "Deployed") /\
    (result = Normal true -> Normal "Deployed" ∈ [a1; a2; a3]).
Proof.
  simpl.
  destruct a1 as [s1|e1].
  2:{ exists (Throw e1), 1%nat. repeat split; try lia; try discriminate.
      intros (? & ? & ? & ? & _); discriminate. }
  destruct (String.eqb_spec s1 "Deployed") as [->|H1].
  { exists (Normal true), 1%nat. repeat split; try lia; try discriminate.
    - intros (? & ? & ? & Ha & _ & _ & Hs & _). injection Ha as <-. contradiction.
    - intros _. set_solver. }
  simpl. destruct a2 as [s2|e2].
  2:{ exists (Throw e2), 2%nat. repeat split; try lia; try discriminate.
      intros (? & ? & ? & _ & ? & _); discriminate. }
  destruct (String.eqb_spec s2 "Deployed") as [->|H2].
  { exists (Normal true), 2%nat. repeat split; try lia; try discriminate.
    - intros (? & ? & ? & _ & Ha & _ & _ & Hs & _). injection Ha as <-. contradiction.
    - intros _. set_solver. }
  simpl. destruct a3 as [s3|e3].
  2:{ exists (Throw e3), 3%nat. repeat split; try lia; try discriminate.
      intros (? & ? & ? & _ & _ & ? & _); discriminate. }
  destruct (String.eqb_spec s3 "Deployed") as [->|H3].
  { exists (Normal true), 3%nat. repeat split; try lia; try discriminate.
    - intros (? & ? & ? & _ & _ & Ha & _ & _ & Hs). injection Ha as <-. contradiction.
    - intros _. set_solver. }
  exists (Normal false), 3%nat. repeat split; try lia; try discriminate.
  intros _. exists s1, s2, s3. auto 10.
Qed.

(** X19: the give-up test is an equality with three: started with a
    counter above three, [distributionIsDeployed] never gives up, however
    many calls read a status other than Deployed. *)
Theorem polling_never_gives_up_past_three (answers : list (Completion string)) (counter : Z) :
  (3 < counter)%Z ->
  Forall (fun a => exists s : string, a = Normal s /\ s <> "Deployed") answers ->
  Cleanup.distributionIsDeployed answers counter = None.
Proof.
  intros Hc Hall. revert counter Hc.
  induction Hall as [|a rest (s & -> & Hs) _ IH]; intros counter Hc; simpl; [reflexivity|].
  destruct (String.eqb_spec s "Deployed"); [contradiction|].
  destruct (Z.eqb_spec counter 3); [lia|].
  rewrite IH by lia. reflexivity.
Qed.

(** X20: the two stack names may be given in either order when exactly
    one of them begins with the name of the user pool stack: that one
    becomes the first stack. When neither does, the names are not
    refused: they are swapped. *)
Theorem stack_names_in_either_order (a b : string) :
  a <> EmptyString -> b <> EmptyString ->
  (String.prefix Cleanup.firstStackName a = true ->
   String.prefix Cleanup.firstStackName b = false ->
   Cleanup.stack_names (Some a) (Some b) = Some (a, b) /\
   Cleanup.stack_names (Some b) (Some a) = Some (a, b)) /\
  (String.prefix Cleanup.firstStackName a = false ->
   String.prefix Cleanup.firstStackName b = false ->
   Cleanup.stack_names (Some a) (Some b) = Some (b, a)).
Proof.
  intros Ha Hb. unfold Cleanup.stack_names.
  destruct (String.eqb_spec a EmptyString); [contradiction|].
  destruct (String.eqb_spec b EmptyString); [contradiction|]. simpl.
  split.
  - intros Hpa Hpb. rewrite Hpa, Hpb. split; reflexivity.
  - intros Hpa Hpb. rewrite Hpa. reflexivity.
Qed.

(** ** The code at the further tokens, keys and answers *)

Lemma forwarded_GET_was_signed_witness :
  exists jwt : string,
    cookie_jwt (with_token "/product-a/content/123" (token header_K1 claims_AB signature_K1))
    = Some jwt.
Proof.
  assert (Hout : handler clock
                   (with_token "/product-a/content/123"
                      (token header_K1 claims_AB signature_K1))
                 = Normal (Forward (marked "true"
                     (with_token "/product-a/content/123"
                        (token header_K1 claims_AB signature_K1)))))
    by (vm_compute; reflexivity).
  destruct (forwarded_GET_was_signed (runtime := TestRuntime) (deployment := TestDeployment)
              clock
              (with_token "/product-a/content/123" (token header_K1 claims_AB signature_K1))
              _ eq_refl Hout)
    as (jwt & _ & _ & _ & _ & _ & _ & _ & _ & Hc & _).
  exists jwt. exact Hc.
Defined.

Lemma subscriber_mark_is_earned_witness :
  exists subs code : string,
    mapping !! "product-a" = Some code /\ code ∈ split "," subs.
Proof.
  assert (Hout : handler clock
                   (with_token "/product-a/content/123"
                      (token header_K1 claims_AB signature_K1))
                 = Normal (Forward (marked "true"
                     (with_token "/product-a/content/123"
                        (token header_K1 claims_AB signature_K1)))))
    by (vm_compute; reflexivity).
  assert (Hmark : headers (marked "true"
                     (with_token "/product-a/content/123"
                        (token header_K1 claims_AB signature_K1)))
                    !! "x-is-subscriber" = Some [mkEntry None "true"])
    by (vm_compute; reflexivity).
  assert (Hne : "product-a" <> EmptyString) by discriminate.
  destruct (subscriber_mark_is_earned (runtime := TestRuntime) (deployment := TestDeployment)
              clock
              (with_token "/product-a/content/123" (token header_K1 claims_AB signature_K1))
              _ "product-a" eq_refl Hout eq_refl Hne Hmark)
    as (_ & _ & subs & code & _ & _ & _ & _ & _ & Hmap & Hin).
  exists subs, code. split; [exact Hmap | exact Hin].
Defined.

Lemma fault_needs_verified_token_witness :
  exists jwt : string,
    cookie_jwt (with_token "/product-a/content/123"
                  (token header_K1 MoreVectors.claims_null signature_K1)) = Some jwt /\
    verify (runtime := MoreVectors.runtime) (deployment := TestDeployment) jwt = Normal true.
Proof.
  assert (Hthrow : handler (runtime := MoreVectors.runtime) (deployment := TestDeployment)
                     clock
                     (with_token "/product-a/content/123"
                        (token header_K1 MoreVectors.claims_null signature_K1))
                   = Throw TypeError)
    by (vm_compute; reflexivity).
  destruct (fault_needs_verified_token
              (runtime := MoreVectors.runtime) (deployment := TestDeployment) clock _
              TypeError Hthrow)
    as (_ & jwt & _ & Hc & Hv & _).
  exists jwt. split; [exact Hc | exact Hv].
Defined.

Lemma unreadable_claims_fault_witness :
  handler (runtime := MoreVectors.runtime) (deployment := TestDeployment) clock
    (with_token "/product-a/content/123"
       (token header_K1 MoreVectors.claims_null signature_K1)) = Throw TypeError /\
  handler (runtime := MoreVectors.runtime) (deployment := TestDeployment) clock
    (with_token "/product-a/content/123"
       (token header_K1 MoreVectors.claims_number signature_K1)) = Throw TypeError.
Proof.
  split.
  - refine (proj1 (unreadable_claims_fault
                     (runtime := MoreVectors.runtime) (deployment := TestDeployment) clock
                     (with_token "/product-a/content/123"
                        (token header_K1 MoreVectors.claims_null signature_K1))
                     (token header_K1 MoreVectors.claims_null signature_K1) _ _ _) _);
      vm_compute; reflexivity.
  - refine (proj2 (unreadable_claims_fault
                     (runtime := MoreVectors.runtime) (deployment := TestDeployment) clock
                     (with_token "/product-a/content/123"
                        (token header_K1 MoreVectors.claims_number signature_K1))
                     (token header_K1 MoreVectors.claims_number signature_K1) _ _ _)
                  MoreVectors.claimsObj_number (JNumber (Fin 5)) _ _ _ _ _);
      try (vm_compute; reflexivity).
    intros s. discriminate.
Defined.

Lemma forward_changes_trust_headers_only_witness :
  same_but_trust_headers
    (forged "/product-b/content/7" (token header_K1 claims_noexp signature_K1))
    (marked "false" (forged "/product-b/content/7" (token header_K1 claims_noexp signature_K1))).
Proof.
  apply (forward_changes_trust_headers_only
           (runtime := TestRuntime) (deployment := TestDeployment) clock).
  vm_compute. reflexivity.
Defined.

Lemma handler_idempotent_on_forwarded_witness :
  handler clock
    (marked "true"
       (with_token "/product-a/content/123" (token header_K1 claims_AB signature_K1)))
  = Normal (Forward
      (marked "true"
         (with_token "/product-a/content/123" (token header_K1 claims_AB signature_K1)))).
Proof.
  apply (handler_idempotent_on_forwarded
           (runtime := TestRuntime) (deployment := TestDeployment) clock
           (with_token "/product-a/content/123" (token header_K1 claims_AB signature_K1))).
  vm_compute. reflexivity.
Defined.

Lemma segments_after_third_ignored_witness :
  verify (header_K1 +:+ "." +:+ claims_AB +:+ "." +:+ signature_K1 +:+ "." +:+ "extra.text")
  = verify (token header_K1 claims_AB signature_K1).
Proof.
  apply (segments_after_third_ignored (runtime := TestRuntime) (deployment := TestDeployment));
    reflexivity.
Defined.

Lemma expired_stays_expired_witness :
  handler 1800000000
    (with_token "/product-a/content/123" (token header_K1 claims_old signature_K1))
  = Normal (Respond response401).
Proof.
  apply (expired_stays_expired (runtime := TestRuntime) (deployment := TestDeployment)
           clock 1800000000
           (with_token "/product-a/content/123" (token header_K1 claims_old signature_K1))
           (token header_K1 claims_old signature_K1) claimsObj_old);
    vm_compute; try reflexivity; discriminate.
Defined.

Lemma origin_checks_first_and_third_segment_witness :
  MockOrigin.handler
    {| MockOrigin.path := "/product-a/anything/123";
       MockOrigin.headers := Some {[ "X-Is-Subscriber" := "TRUE" ]} |}
  = Normal {| MockOrigin.statusCode := 200; MockOrigin.body := "Preview only" |} /\
  MockOrigin.handler
    {| MockOrigin.path := "/product-a/content"; MockOrigin.headers := None |}
  = Normal {| MockOrigin.statusCode := 400;
              MockOrigin.body := MockOrigin.JSON_stringify_text "Invalid URL" |}.
Proof.
  split.
  - refine (proj1 (origin_checks_first_and_third_segment "product-a" "anything" "123"
                     _ _ _ _ _) {[ "X-Is-Subscriber" := "TRUE" ]});
      try reflexivity; discriminate.
  - refine (proj2 (origin_checks_first_and_third_segment "product-a" "content" "123"
                     _ _ _ _ _) None);
      try reflexivity; discriminate.
Defined.

Lemma served_path_was_marked_witness :
  headers
    (marked "false" (forged "/product-b/content/7" (token header_K1 claims_noexp signature_K1)))
    !! "x-api-key" = Some [mkEntry None ApiKeyValue].
Proof.
  refine (proj1 (served_path_was_marked
                   (runtime := TestRuntime) (deployment := TestDeployment) clock
                   (forged "/product-b/content/7" (token header_K1 claims_noexp signature_K1))
                   _
                   {| MockOrigin.path := "/product-b/content/7";
                      MockOrigin.headers := Some {[ "X-Is-Subscriber" := "false" ]} |}
                   {| MockOrigin.statusCode := 200; MockOrigin.body := "Preview only" |}
                   _ _ _ _ _));
    vm_compute; reflexivity.
Defined.

Lemma createPemKeys_only_given_keys_witness :
  exists k kid : JsValue,
    k ∈ [MoreVectors.jwk_K1_old; MoreVectors.jwk_K1; MoreVectors.jwk_K2] /\
    js_get k "kid" = Normal kid /\
    ToPropertyKey (runtime := TestRuntime) kid = Normal "K1" /\
    MoreVectors.jwkToPem k = Normal pem_K1.
Proof.
  apply (createPemKeys_only_given_keys (runtime := TestRuntime) MoreVectors.jwkToPem
           [MoreVectors.jwk_K1_old; MoreVectors.jwk_K1; MoreVectors.jwk_K2]
           (<["K2" := "-----BEGIN PUBLIC KEY----- K2 -----END PUBLIC KEY-----"]>
              {[ "K1" := pem_K1 ]}));
    vm_compute; reflexivity.
Defined.

Lemma createPemKeys_all_or_nothing_witness :
  exists (kid : JsValue) (name pem : string),
    js_get MoreVectors.jwk_K2 "kid" = Normal kid /\
    ToPropertyKey (runtime := TestRuntime) kid = Normal name /\
    MoreVectors.jwkToPem MoreVectors.jwk_K2 = Normal pem.
Proof.
  apply (createPemKeys_all_or_nothing (runtime := TestRuntime) MoreVectors.jwkToPem
           [MoreVectors.jwk_K1_old; MoreVectors.jwk_K1; MoreVectors.jwk_K2]
           (<["K2" := "-----BEGIN PUBLIC KEY----- K2 -----END PUBLIC KEY-----"]>
              {[ "K1" := pem_K1 ]})).
  - vm_compute. reflexivity.
  - set_solver.
Defined.

Lemma published_key_reaches_filter_witness :
  exists pem : string,
    MoreVectors.jwkToPem MoreVectors.jwk_K1 = Normal pem /\
    (<["K2" := "-----BEGIN PUBLIC KEY----- K2 -----END PUBLIC KEY-----"]>
       ({[ "K1" := pem_K1 ]} : gmap string string)) !! "K1" = Some pem /\
    getKey (runtime := TestRuntime)
      (deployment :=
         deployed
           (<["K2" := "-----BEGIN PUBLIC KEY----- K2 -----END PUBLIC KEY-----"]>
              {[ "K1" := pem_K1 ]})
           "0123456789abcdef")
      (JString "K1") = Normal (SString pem).
Proof.
  apply (published_key_reaches_filter (runtime := TestRuntime) MoreVectors.jwkToPem
           [MoreVectors.jwk_K1_old] [MoreVectors.jwk_K2] MoreVectors.jwk_K1 (JString "K1") "K1"
           pem_K1).
  - vm_compute. reflexivity.
  - reflexivity.
  - reflexivity.
  - discriminate.
  - constructor; [|constructor]. intros kid' Hkid'. injection Hkid' as <-. discriminate.
Defined.


Lemma polling_never_gives_up_past_three_witness :
  Cleanup.distributionIsDeployed
    [Normal "InProgress"; Normal "InProgress"; Normal "InProgress"; Normal "InProgress"] 4
  = None.
Proof.
  apply polling_never_gives_up_past_three; [lia|].
  repeat (constructor; [exists "InProgress"; split; [reflexivity | discriminate]|]).
  constructor.
Defined.

Lemma stack_names_in_either_order_witness :
  Cleanup.stack_names (Some "paywalldemo-cfdistribution-stack-1700000000000")
    (Some "paywalldemo-userpool-stack-1700000000000")
  = Some ("paywalldemo-userpool-stack-1700000000000",
          "paywalldemo-cfdistribution-stack-1700000000000").
Proof.
  refine (proj2 (proj1 (stack_names_in_either_order
                          "paywalldemo-userpool-stack-1700000000000"
                          "paywalldemo-cfdistribution-stack-1700000000000" _ _) _ _));
    try reflexivity; discriminate.
Defined.
